(** * Verification of the TeleporterBot dispatch core

    Shallow embedding of the pricing engine, the pickup slot scheduler,
    the rider assignment endpoint, the order status endpoints, the OTP
    service and the return-trip matcher of the TeleporterBot API
    (src/api).  Python floats are modelled as exact rationals [Q],
    datetimes as minutes [Z] since a fixed midnight, and the external
    collaborators (geocoding, road distance, haversine) as parameters. *)

From Stdlib Require Import QArith Qround Qabs ZArith List String Bool Lia.
From Stdlib Require Import Sorting.Sorted Sorting.Permutation.
Import ListNotations.

Open Scope Q_scope.

(** ** Python numeric helpers *)

(** Strict comparison of rationals as a boolean. *)
Definition Qlt_bool (a b : Q) : bool := negb (Qle_bool b a).

(** Python's [max(a, b)]: the first argument unless the second is larger. *)
Definition py_max (a b : Q) : Q := if Qlt_bool a b then b else a.

(** Round half to even, the rounding of Python's [round]. *)
Definition round_half_even (q : Q) : Z :=
  let f := Qfloor q in
  let d := q - inject_Z f in
  if Qlt_bool d (1 # 2) then f
  else if Qlt_bool (1 # 2) d then (f + 1)%Z
  else if Z.even f then f else (f + 1)%Z.

(** Python's [round(x, 2)]. *)
Definition round2 (q : Q) : Q := inject_Z (round_half_even (q * 100)) / 100.

(** ** Pricing engine (src/api/services/pricing.py) *)
Module Pricing.

Definition RATE_PER_KM : Q := 10.
Definition MINIMUM_CHARGE : Q := 35.

Definition VEHICLE_MULTIPLIER (v : string) : option Q :=
  if String.eqb v "BIKE" then Some 1
  else if String.eqb v "AUTO" then Some (13 # 10)
  else if String.eqb v "VAN" then Some (16 # 10)
  else None.

Definition TIME_FACTOR (k : string) : option Q :=
  if String.eqb k "NEXT_DAY" then Some (9 # 10)
  else if String.eqb k "STANDARD" then Some 1
  else if String.eqb k "SAME_DAY" then Some (13 # 10)
  else if String.eqb k "EXPRESS" then Some (18 # 10)
  else None.

Definition WEIGHT_TO_VEHICLE (w : string) : option string :=
  if String.eqb w "LIGHT" then Some "BIKE"%string
  else if String.eqb w "MEDIUM" then Some "AUTO"%string
  else if String.eqb w "HEAVY" then Some "VAN"%string
  else None.

Definition BATCH_DISCOUNT_PCT : Q := 15 # 100.

(** [SUBSCRIPTION_PLANS[plan]["discount_pct"]]. *)
Definition plan_discount_pct (plan : string) : option Q :=
  if String.eqb plan "STARTER" then Some 0
  else if String.eqb plan "BUSINESS" then Some (5 # 100)
  else if String.eqb plan "ENTERPRISE" then Some (10 # 100)
  else None.

Definition ADDON_PRICES (a : string) : option Q :=
  if String.eqb a "PRIORITY_HANDLING" then Some 30
  else if String.eqb a "PHOTO_PROOF" then Some 10
  else if String.eqb a "INSURANCE_5K" then Some 25
  else if String.eqb a "INSURANCE_25K" then Some 75
  else if String.eqb a "SCHEDULED_SLOT" then Some 20
  else if String.eqb a "RETURN_SERVICE" then Some 15
  else None.

Definition SURGE_BANDS : list (Q * Q) :=
  [(2, 1); (4, 12 # 10); (6, 14 # 10); (999, 16 # 10)].

Definition RIDER_SURGE_SHARE : Q := 3 # 10.

(** dict.get with a default *)
Definition get_or {A} (o : option A) (d : A) : A :=
  match o with Some x => x | None => d end.

(** The f-string reasons of [calculate_surge], kept with their data. *)
Inductive SurgeReason :=
| NoRiders (active_orders : Z)
| HighDemand (active_orders available_riders : Z) (ratio : Q)
| ExtremeDemand (active_orders available_riders : Z).

Record PriceBreakdown := {
  distance_km : Q;
  duration_min : Z;
  vehicle_type : string;
  rate_per_km : Q;
  vehicle_multiplier : Q;
  time_factor_key : string;
  time_factor_value : Q;
  base_cost : Q;
  surge_multiplier : Q;
  surge_reason : option SurgeReason;
  addons_cost : Q;
  batch_discount : Q;
  subscription_discount : Q;
  total_cost : Q;
  rider_surge_bonus : Q
}.

Definition determine_vehicle (weight_tier : string) : string :=
  get_or (WEIGHT_TO_VEHICLE weight_tier) "BIKE"%string.

(** The band loop of [calculate_surge]. *)
Fixpoint surge_loop (bands : list (Q * Q)) (active riders : Z) (ratio : Q)
  : option (Q * option SurgeReason) :=
  match bands with
  | [] => None
  | (threshold, multiplier) :: rest =>
      if Qlt_bool ratio threshold then
        if Qlt_bool 1 multiplier then
          Some (multiplier, Some (HighDemand active riders ratio))
        else Some (1, None)
      else surge_loop rest active riders ratio
  end.

Definition calculate_surge (active_orders available_riders : Z)
  : Q * option SurgeReason :=
  if (available_riders <=? 0)%Z then (16 # 10, Some (NoRiders active_orders))
  else
    let ratio := inject_Z active_orders / inject_Z available_riders in
    match surge_loop SURGE_BANDS active_orders available_riders ratio with
    | Some r => r
    | None => (16 # 10, Some (ExtremeDemand active_orders available_riders))
    end.

(** Python truthiness of an optional string argument. *)
Definition str_truthy (s : option string) : bool :=
  match s with Some s' => negb (String.eqb s' "") | None => false end.

Definition addons_total (addons : list string) : Q :=
  fold_left (fun acc a => acc + get_or (ADDON_PRICES a) 0) addons 0.

(** [VEHICLE_MULTIPLIER[vehicle_type]] never misses: [determine_vehicle]
    only returns keys of the table; the fallback 1 is unreachable. *)
Definition calculate_price (distance_km' : Q) (duration_min' : Z)
  (weight_tier : string) (time_factor_key' : string)
  (surge_multiplier' : Q) (surge_reason' : option SurgeReason)
  (addons : list string) (is_batch_eligible : bool)
  (subscription_plan : option string) (free_deliveries_remaining : Z)
  : PriceBreakdown :=
  let vehicle_type' := determine_vehicle weight_tier in
  let vehicle_mult := get_or (VEHICLE_MULTIPLIER vehicle_type') 1 in
  let time_fact := get_or (TIME_FACTOR time_factor_key') 1 in
  let base_cost' := distance_km' * RATE_PER_KM * vehicle_mult * time_fact in
  let surged_cost := base_cost' * surge_multiplier' in
  let rider_surge_bonus' :=
    if Qlt_bool 1 surge_multiplier' then (surged_cost - base_cost') * RIDER_SURGE_SHARE
    else 0 in
  let addons_cost' := addons_total addons in
  let batch_discount' := if is_batch_eligible then surged_cost * BATCH_DISCOUNT_PCT else 0 in
  let subscription_discount' :=
    if str_truthy subscription_plan && (0 <? free_deliveries_remaining)%Z then surged_cost
    else if str_truthy subscription_plan then
      let disc_pct := match subscription_plan with
                      | Some p => get_or (plan_discount_pct p) 0
                      | None => 0 end in
      surged_cost * disc_pct
    else 0 in
  let total := surged_cost + addons_cost' - batch_discount' - subscription_discount' in
  let total := py_max total MINIMUM_CHARGE in
  {| distance_km := distance_km';
     duration_min := duration_min';
     vehicle_type := vehicle_type';
     rate_per_km := RATE_PER_KM;
     vehicle_multiplier := vehicle_mult;
     time_factor_key := time_factor_key';
     time_factor_value := time_fact;
     base_cost := round2 base_cost';
     surge_multiplier := surge_multiplier';
     surge_reason := surge_reason';
     addons_cost := round2 addons_cost';
     batch_discount := round2 batch_discount';
     subscription_discount := round2 subscription_discount';
     total_cost := round2 total;
     rider_surge_bonus := round2 rider_surge_bonus' |}.

(** The surged cost of [calculate_price], [base_cost * surge_multiplier]. *)
Definition surged (distance_km' : Q) (weight_tier time_factor_key' : string)
  (surge_multiplier' : Q) : Q :=
  distance_km' * RATE_PER_KM * get_or (VEHICLE_MULTIPLIER (determine_vehicle weight_tier)) 1
  * get_or (TIME_FACTOR time_factor_key') 1 * surge_multiplier'.

End Pricing.

(** ** Order lifecycle records (src/api/models/order.py) *)
Module Orders.

Inductive OrderStatus :=
| ORDER_PLACED | PAYMENT_CONFIRMED | PICKUP_SCHEDULED | PICKUP_RIDER_ASSIGNED
| PICKUP_EN_ROUTE | PICKED_UP | IN_TRANSIT_TO_WAREHOUSE | AT_WAREHOUSE
| ROUTE_OPTIMIZED | DELIVERY_RIDER_ASSIGNED | OUT_FOR_DELIVERY | DELIVERED
| COMPLETED | CANCELLED | REFUNDED.

Scheme Equality for OrderStatus.

(** The ORM row, with the columns the endpoints below read or write.
    Coordinates are nullable [Numeric] columns. *)
Record Order := {
  id : nat;
  status : OrderStatus;
  pickup_rider_id : option nat;
  pickup_address : string;
  pickup_lat : option Q;
  pickup_lng : option Q;
  pickup_confirmed_at : option Z;
  delivered_at : option Z;
  cancelled_at : option Z
}.

Record OrderEvent := {
  ev_order_id : nat;
  from_status : option OrderStatus;
  to_status : OrderStatus;
  actor_type : string;
  actor_id : option nat;
  created_at : Z
}.

Record Rider := {
  rider_id : nat;
  rider_status : string;
  current_lat : option Q;
  current_lng : option Q;
  (** [rider.warehouse_id and rider.warehouse]: the depot's coordinates *)
  rider_warehouse : option (Q * Q);
  current_load : option nat
}.

(** The session's view of the store: orders, the append-only event log
    (newest last) and riders. *)
Record Db := { orders : list Order; events : list OrderEvent; riders : list Rider }.

Definition find_order (db : Db) (oid : nat) : option Order :=
  find (fun o => Nat.eqb (id o) oid) (orders db).

Definition put_order (db : Db) (o : Order) : Db :=
  {| orders := map (fun o' => if Nat.eqb (id o') (id o) then o else o') (orders db);
     events := events db; riders := riders db |}.

Definition add_event (db : Db) (e : OrderEvent) : Db :=
  {| orders := orders db; events := events db ++ [e]; riders := riders db |}.

Definition put_rider (db : Db) (r : Rider) : Db :=
  {| orders := orders db; events := events db;
     riders := map (fun r' => if Nat.eqb (rider_id r') (rider_id r) then r else r') (riders db) |}.

Definition set_status (o : Order) (s : OrderStatus) : Order :=
  {| id := id o; status := s; pickup_rider_id := pickup_rider_id o;
     pickup_address := pickup_address o; pickup_lat := pickup_lat o;
     pickup_lng := pickup_lng o; pickup_confirmed_at := pickup_confirmed_at o;
     delivered_at := delivered_at o; cancelled_at := cancelled_at o |}.

Definition set_delivered_at (o : Order) (t : Z) : Order :=
  {| id := id o; status := status o; pickup_rider_id := pickup_rider_id o;
     pickup_address := pickup_address o; pickup_lat := pickup_lat o;
     pickup_lng := pickup_lng o; pickup_confirmed_at := pickup_confirmed_at o;
     delivered_at := Some t; cancelled_at := cancelled_at o |}.

Definition set_cancelled_at (o : Order) (t : Z) : Order :=
  {| id := id o; status := status o; pickup_rider_id := pickup_rider_id o;
     pickup_address := pickup_address o; pickup_lat := pickup_lat o;
     pickup_lng := pickup_lng o; pickup_confirmed_at := pickup_confirmed_at o;
     delivered_at := delivered_at o; cancelled_at := Some t |}.

Definition set_pickup_confirmed_at (o : Order) (t : Z) : Order :=
  {| id := id o; status := status o; pickup_rider_id := pickup_rider_id o;
     pickup_address := pickup_address o; pickup_lat := pickup_lat o;
     pickup_lng := pickup_lng o; pickup_confirmed_at := Some t;
     delivered_at := delivered_at o; cancelled_at := cancelled_at o |}.

(** [OrderStatusUpdate]: a status of the enum, an actor class and id. *)
Record OrderStatusUpdate := {
  req_status : OrderStatus;
  req_actor_type : string;
  req_actor_id : option nat
}.

Inductive StatusResponse :=
| StatusNotFound                                   (* HTTPException 404 *)
| StatusChanged (order_id : nat) (old_status new_status : OrderStatus).

(** [update_order_status] (src/api/routers/orders.py); [now] is
    [datetime.utcnow()]. *)
Definition update_order_status (db : Db) (order_id : nat) (data : OrderStatusUpdate)
  (now : Z) : StatusResponse * Db :=
  match find_order db order_id with
  | None => (StatusNotFound, db)
  | Some order =>
      let old_status := status order in
      let order1 := set_status order (req_status data) in
      let order2 :=
        match req_status data with
        | DELIVERED => set_delivered_at order1 now
        | CANCELLED => set_cancelled_at order1 now
        | _ => order1
        end in
      let event := {| ev_order_id := id order2; from_status := Some old_status;
                      to_status := req_status data; actor_type := req_actor_type data;
                      actor_id := req_actor_id data; created_at := now |} in
      (StatusChanged order_id old_status (req_status data),
       add_event (put_order db order2) event)
  end.

End Orders.

(** ** OTP service (src/api/services/otp.py) *)
Module Otp.

(** A Redis hash [otp:{order_id}:{otp_type}].  bcrypt is modelled by
    its correctness: [checkpw(p, hashpw(c))] holds exactly when [p = c],
    so the entry keeps the hashed code. *)
Record OtpEntry := { hash : string; attempts : Z }.

Definition Key := (nat * string)%type.

Definition key_eqb (k1 k2 : Key) : bool :=
  Nat.eqb (fst k1) (fst k2) && String.eqb (snd k1) (snd k2).

Definition Store := list (Key * OtpEntry).

Fixpoint hgetall (s : Store) (k : Key) : option OtpEntry :=
  match s with
  | [] => None
  | (k', e) :: rest => if key_eqb k k' then Some e else hgetall rest k
  end.

Definition delete (s : Store) (k : Key) : Store :=
  filter (fun p => negb (key_eqb k (fst p))) s.

(** [hset] of both fields: replaces the entry. *)
Definition hset (s : Store) (k : Key) (e : OtpEntry) : Store := (k, e) :: delete s k.

Definition hincrby_attempts (s : Store) (k : Key) (n : Z) : Store :=
  match hgetall s k with
  | Some e => hset s k {| hash := hash e; attempts := (attempts e + n)%Z |}
  | None => hset s k {| hash := ""; attempts := n |}
  end.

Definition checkpw (provided stored_hash : string) : bool := String.eqb provided stored_hash.

(** [generate_otp]: the random 6-digit [code] is an argument. *)
Definition generate_otp (s : Store) (order_id : nat) (otp_type : string) (code : string)
  : string * Store :=
  (code, hset s (order_id, otp_type) {| hash := code; attempts := 0 |}).

Inductive OtpError := Expired | TooManyAttempts | Incorrect (remaining : Z).

Record VerifyResult := { valid : bool; error : option OtpError; remaining : Z }.

Definition verify_otp (s : Store) (order_id : nat) (otp_type : string) (provided_otp : string)
  : VerifyResult * Store :=
  let key := (order_id, otp_type) in
  match hgetall s key with
  | None => ({| valid := false; error := Some Expired; remaining := 0 |}, s)
  | Some data =>
      let attempts' := attempts data in
      if (3 <=? attempts')%Z then
        ({| valid := false; error := Some TooManyAttempts; remaining := 0 |}, s)
      else
        let s1 := hincrby_attempts s key 1 in
        if checkpw provided_otp (hash data) then
          ({| valid := true; error := None; remaining := 0 |}, delete s1 key)
        else
          let rem := (2 - attempts')%Z in
          ({| valid := false; error := Some (Incorrect (Z.max rem 0));
              remaining := Z.max rem 0 |}, s1)
  end.

Definition get_otp_hash (s : Store) (order_id : nat) (otp_type : string) : option string :=
  match hgetall s (order_id, otp_type) with
  | Some data => Some (hash data)
  | None => None
  end.

End Otp.

(** ** Order endpoints using the OTP service and rider assignment
    (src/api/routers/orders.py, src/api/routers/payments.py) *)
Module Endpoints.
Import Orders Otp.

Record OTPVerifyRequest := {
  v_order_id : nat;
  v_otp_type : string;
  v_otp_code : string;
  v_rider_id : nat
}.

(** [verify_order_otp]: the OTP store and the session are threaded. *)
Definition verify_order_otp (st : Store) (db : Db) (data : OTPVerifyRequest) (now : Z)
  : VerifyResult * Store * Db :=
  let '(result, st1) := verify_otp st (v_order_id data) (v_otp_type data) (v_otp_code data) in
  if valid result then
    match find_order db (v_order_id data) with
    | Some order =>
        let order1 :=
          if String.eqb (v_otp_type data) "pickup" then
            set_pickup_confirmed_at (set_status order PICKED_UP) now
          else set_delivered_at (set_status order DELIVERED) now in
        let event := {| ev_order_id := id order1;
                        from_status := Some (status order1);
                        to_status := if String.eqb (v_otp_type data) "pickup"
                                     then PICKED_UP else DELIVERED;
                        actor_type := "RIDER"; actor_id := Some (v_rider_id data);
                        created_at := now |} in
        (result, st1, add_event (put_order db order1) event)
    | None => (result, st1, db)
    end
  else (result, st1, db).

(** Rider assignment.  Geocoding, the road-distance provider and the
    haversine formula live in src/api/services/maps.py and are external
    services here: parameters of the section. *)
Section Assignment.

Variable geocode : string -> option (Q * Q).
(** [get_distance(lat1, lng1, lat2, lng2)]: [None] when the call raises,
    otherwise the [distance_km] (possibly missing) and [duration_min]. *)
Variable get_distance : Q -> Q -> Q -> Q -> option (option Q * option Z).
Variable haversine_distance : Q -> Q -> Q -> Q -> Q.

Definition ZONE_RADIUS_KM : Q := 25.

(** Python truthiness of a nullable numeric column. *)
Definition q_truthy (q : option Q) : bool :=
  match q with Some x => negb (Qeq_bool x 0) | None => false end.

Definition has_gps (r : Rider) : bool :=
  match current_lat r, current_lng r with Some _, Some _ => true | _, _ => false end.

Definition _rider_location (r : Rider) : option (Q * Q) :=
  match current_lat r, current_lng r with
  | Some la, Some ln => Some (la, ln)
  | _, _ => rider_warehouse r
  end.

Record Assignment := { a_rider_id : nat; a_distance_km : Q; a_eta_min : option Z }.

(** The loop keeping the first rider of minimal distance. *)
Fixpoint best_loop (pool : list Rider) (plat plng : Q)
  (best : option (Rider * Q * option Z)) : option (Rider * Q * option Z) :=
  match pool with
  | [] => best
  | r :: rest =>
      let best' :=
        match _rider_location r with
        | None => best
        | Some (la, ln) =>
            match get_distance la ln plat plng with
            | None => best
            | Some (None, _) => best
            | Some (Some d_km, dur) =>
                match best with
                | None => Some (r, d_km, dur)
                | Some (_, bd, _) => if Qlt_bool d_km bd then Some (r, d_km, dur) else best
                end
            end
        end in
      best_loop rest plat plng best'
  end.

Definition set_pickup_coords (o : Order) (la ln : Q) : Order :=
  {| id := id o; status := status o; pickup_rider_id := pickup_rider_id o;
     pickup_address := pickup_address o; pickup_lat := Some la; pickup_lng := Some ln;
     pickup_confirmed_at := pickup_confirmed_at o; delivered_at := delivered_at o;
     cancelled_at := cancelled_at o |}.

Definition set_pickup_rider (o : Order) (rid : nat) : Order :=
  {| id := id o; status := status o; pickup_rider_id := Some rid;
     pickup_address := pickup_address o; pickup_lat := pickup_lat o;
     pickup_lng := pickup_lng o; pickup_confirmed_at := pickup_confirmed_at o;
     delivered_at := delivered_at o; cancelled_at := cancelled_at o |}.

Definition take_pickup (r : Rider) : Rider :=
  {| rider_id := rider_id r; rider_status := "ON_PICKUP";
     current_lat := current_lat r; current_lng := current_lng r;
     rider_warehouse := rider_warehouse r;
     current_load := Some (S (match current_load r with Some n => n | None => 0%nat end)) |}.

(** Choose the rider once the pickup coordinates are known. *)
Definition assign_with_coords (order : Order) (db : Db) (plat plng : Q) (now : Z)
  : option Assignment * Db :=
  let riders' := filter (fun r => String.eqb (rider_status r) "ON_DUTY") (riders db) in
  match riders' with
  | [] => (None, db)
  | _ =>
    let riders_with_gps := filter has_gps riders' in
    let riders_warehouse_only :=
      filter (fun r => negb (has_gps r) && match _rider_location r with Some _ => true | None => false end) riders' in
    let eligible := match riders_with_gps with [] => riders_warehouse_only | _ => riders_with_gps end in
    match eligible with
    | [] => (None, db)
    | _ =>
      let in_zone :=
        filter (fun r => match _rider_location r with
                         | Some (la, ln) => Qle_bool (haversine_distance plat plng la ln) ZONE_RADIUS_KM
                         | None => false end) eligible in
      let pool := match in_zone with [] => eligible | _ => in_zone end in
      match best_loop pool plat plng None with
      | None => (None, db)
      | Some (best_rider, best_distance_km, best_duration_min) =>
          let old_status := status order in
          let order1 := set_status (set_pickup_rider order (rider_id best_rider)) PICKUP_RIDER_ASSIGNED in
          let event := {| ev_order_id := id order; from_status := Some old_status;
                          to_status := PICKUP_RIDER_ASSIGNED; actor_type := "SYSTEM";
                          actor_id := None; created_at := now |} in
          (Some {| a_rider_id := rider_id best_rider; a_distance_km := best_distance_km;
                   a_eta_min := best_duration_min |},
           add_event (put_rider (put_order db order1) (take_pickup best_rider)) event)
      end
    end
  end.

(** [_assign_nearest_pickup_rider]; the notifications are fire-and-forget
    and left out. *)
Definition _assign_nearest_pickup_rider (order : Order) (db : Db) (now : Z)
  : option Assignment * Db :=
  if q_truthy (pickup_lat order) && q_truthy (pickup_lng order) then
    match pickup_lat order, pickup_lng order with
    | Some la, Some ln => assign_with_coords order db la ln now
    | _, _ => (None, db)
    end
  else
    let geo := if negb (String.eqb (pickup_address order) "") then geocode (pickup_address order)
               else None in
    match geo with
    | Some (la, ln) =>
        let order1 := set_pickup_coords order la ln in
        let db1 := put_order db order1 in
        if q_truthy (Some la) && q_truthy (Some ln) then assign_with_coords order1 db1 la ln now
        else (None, db1)
    | None => (None, db)
    end.

Inductive AssignResponse :=
| AssignHttpError (code : Z)
| AlreadyAssigned (rider : nat)
| Assigned (a : Assignment).

(** [assign_rider_to_order] (POST /assign-rider/{order_id}). *)
Definition assign_rider_to_order (db : Db) (order_id : nat) (now : Z) : AssignResponse * Db :=
  match find_order db order_id with
  | None => (AssignHttpError 404, db)
  | Some order =>
      if negb (OrderStatus_beq (status order) PAYMENT_CONFIRMED) then (AssignHttpError 400, db)
      else match pickup_rider_id order with
           | Some r => (AlreadyAssigned r, db)
           | None =>
               match _assign_nearest_pickup_rider order db now with
               | (None, db1) => (AssignHttpError 503, db1)
               | (Some a, db1) => (Assigned a, db1)
               end
           end
  end.

End Assignment.

End Endpoints.

(** ** Payment endpoints (src/api/routers/payments.py) *)
Module Payments.
Import Orders Otp Endpoints.

Inductive PaymentStatus := PENDING | PAID | REFUNDED | FAILED.
Inductive PaymentMode := COD | CARD | UPI.

Scheme Equality for PaymentStatus.
Scheme Equality for PaymentMode.

(** The [payment] and [payment_mode] columns of an order row. *)
Record PaymentInfo := { payment : PaymentStatus; payment_mode : PaymentMode }.

(** The column defaults of a new order. *)
Definition default_payment_info : PaymentInfo := {| payment := PENDING; payment_mode := COD |}.

(** The payment columns of the orders, by order id; an order without an
    entry still has the column defaults. *)
Definition PaymentTable := list (nat * PaymentInfo).

Definition payment_of (pt : PaymentTable) (oid : nat) : PaymentInfo :=
  match find (fun e => Nat.eqb (fst e) oid) pt with
  | Some (_, p) => p
  | None => default_payment_info
  end.

Definition set_payment (pt : PaymentTable) (oid : nat) (p : PaymentInfo) : PaymentTable :=
  (oid, p) :: filter (fun e => negb (Nat.eqb (fst e) oid)) pt.

(** [str.upper] on the ASCII letters (request parameters are ASCII
    strings here). *)
Definition ascii_upper (c : Ascii.ascii) : Ascii.ascii :=
  let n := Ascii.nat_of_ascii c in
  if (97 <=? n)%nat && (n <=? 122)%nat then Ascii.ascii_of_nat (n - 32) else c.

Fixpoint str_upper (s : string) : string :=
  match s with
  | EmptyString => EmptyString
  | String c s' => String (ascii_upper c) (str_upper s')
  end.

(** [mode = payment_mode.upper()] and the check [mode in ("COD", "CARD", "UPI")]. *)
Definition parse_mode (payment_mode' : string) : option PaymentMode :=
  let mode := str_upper payment_mode' in
  if String.eqb mode "COD" then Some COD
  else if String.eqb mode "CARD" then Some CARD
  else if String.eqb mode "UPI" then Some UPI
  else None.

Inductive ConfirmResponse :=
| ConfirmNotFound                            (* HTTPException 404 *)
| AlreadyPaid (mode : PaymentMode)           (* "already_paid" *)
| InvalidMode                                (* HTTPException 400 *)
| Confirmed (mode : PaymentMode) (payment_status : PaymentStatus)
            (pickup_otp drop_otp : string) (pickup_assignment : option Assignment).

Section Payment.
Variable geocode : string -> option (Q * Q).
Variable get_distance : Q -> Q -> Q -> Q -> option (option Q * option Z).
Variable haversine_distance : Q -> Q -> Q -> Q -> Q.

(** [confirm_payment] (POST /confirm/{order_id}).  The random codes of
    the two [generate_otp] calls are arguments; the simulated
    [razorpay_payment_id] and the user notification are left out. *)
Definition confirm_payment (db : Db) (pt : PaymentTable) (st : Store) (order_id : nat)
  (payment_mode' : string) (pickup_code drop_code : string) (now : Z)
  : ConfirmResponse * Db * PaymentTable * Store :=
  match find_order db order_id with
  | None => (ConfirmNotFound, db, pt, st)
  | Some order =>
      let info := payment_of pt order_id in
      if PaymentStatus_beq (payment info) PAID then (AlreadyPaid (payment_mode info), db, pt, st)
      else
        match parse_mode payment_mode' with
        | None => (InvalidMode, db, pt, st)
        | Some mode =>
            let pay := match mode with COD => PENDING | _ => PAID end in
            let pt1 := set_payment pt order_id {| payment := pay; payment_mode := mode |} in
            let order1 := set_status order PAYMENT_CONFIRMED in
            let db1 := put_order db order1 in
            let '(pickup_otp, st1) := generate_otp st (id order1) "pickup" pickup_code in
            let '(drop_otp, st2) := generate_otp st1 (id order1) "drop" drop_code in
            let event := {| ev_order_id := id order1; from_status := Some ORDER_PLACED;
                            to_status := PAYMENT_CONFIRMED; actor_type := "SYSTEM";
                            actor_id := None; created_at := now |} in
            let db2 := add_event db1 event in
            let '(assignment, db3) :=
              _assign_nearest_pickup_rider geocode get_distance haversine_distance order1 db2 now in
            (Confirmed mode pay pickup_otp drop_otp assignment, db3, pt1, st2)
        end
  end.

End Payment.

Inductive CodResponse :=
| CodNotFound                    (* HTTPException 404 *)
| NotCod                         (* "not_cod" *)
| CodCollected (order_id : nat). (* "cod_collected" *)

(** [mark_cod_collected] (POST /cod-collected/{order_id}); the returned
    amount is left out. *)
Definition mark_cod_collected (db : Db) (pt : PaymentTable) (order_id : nat)
  (rider_id : option nat) (now : Z) : CodResponse * Db * PaymentTable :=
  match find_order db order_id with
  | None => (CodNotFound, db, pt)
  | Some order =>
      let info := payment_of pt order_id in
      if negb (PaymentMode_beq (payment_mode info) COD) then (NotCod, db, pt)
      else
        let pt1 := set_payment pt order_id {| payment := PAID; payment_mode := payment_mode info |} in
        let event := {| ev_order_id := id order; from_status := Some (status order);
                        to_status := status order; actor_type := "RIDER";
                        actor_id := rider_id; created_at := now |} in
        (CodCollected order_id, add_event db event, pt1)
  end.

End Payments.

(** ** Settings (src/api/config.py) *)
Record Settings := {
  BUSINESS_HOURS_START : Z;
  BUSINESS_HOURS_END : Z;
  CUTOFF_BUFFER_MIN : Z;
  MAX_DETOUR_KM : Q;
  MAX_RETURN_PICKUPS : Z
}.

Definition default_settings : Settings :=
  {| BUSINESS_HOURS_START := 8; BUSINESS_HOURS_END := 20; CUTOFF_BUFFER_MIN := 90;
     MAX_DETOUR_KM := 2; MAX_RETURN_PICKUPS := 3 |}.

(** ** Pickup scheduler (src/api/services/pickup_scheduler.py)

    A [datetime] is the number of minutes since midnight of day 0, a
    [date] a day number and a [time] minutes since midnight. *)
Module Scheduler.

Open Scope Z_scope.

(** [datetime.time(h, m)]: raises [ValueError] outside 0..23 / 0..59. *)
Definition mk_time (h m : Z) : option Z :=
  if (0 <=? h) && (h <? 24) && (0 <=? m) && (m <? 60) then Some (h * 60 + m) else None.

Definition _combine_dt (d t : Z) : Z := d * 1440 + t.
Definition date_of (dt : Z) : Z := dt / 1440.
Definition time_of (dt : Z) : Z := dt mod 1440.

Record RiderSchedule := {
  shift_start : Z;
  shift_end : Z;
  max_pickups_per_hour : option Z
}.

Record TimeSlot := { start : Z; end_ : Z; available_capacity : Z }.

(** [range(a, b)] *)
Definition py_range (a b : Z) : list Z :=
  map (fun k => a + Z.of_nat k) (seq 0 (Z.to_nat (b - a))).

Definition _calculate_slot_capacity (hour : Z) (rider_schedules : list RiderSchedule)
  : option Z :=
  match mk_time hour 0 with
  | None => None
  | Some slot_time =>
      Some (fold_left (fun capacity rider =>
              if (shift_start rider <=? slot_time) && (slot_time <? shift_end rider)
              then capacity + Pricing.get_or (max_pickups_per_hour rider) 3
              else capacity) rider_schedules 0)
  end.

(** [scheduled_pickups.get(hour, 0)] *)
Fixpoint booked_get (scheduled_pickups : list (Z * Z)) (hour : Z) : Z :=
  match scheduled_pickups with
  | [] => 0
  | (h, c) :: rest => if h =? hour then c else booked_get rest hour
  end.

Section Slots.
Variable settings : Settings.
Variable now : Z.
Variable rider_schedules : list RiderSchedule.
Variable scheduled_pickups : list (Z * Z).
Variable cutoff_time : Z.

(** The inner loop over the hours of one day, appending to [slots]. *)
Fixpoint hour_loop (hours : list Z) (current_date : Z) (slots : list TimeSlot)
  : option (list TimeSlot) :=
  match hours with
  | [] => Some slots
  | hour :: rest =>
      match mk_time hour 0 with
      | None => None
      | Some t0 =>
        let slot_start := _combine_dt current_date t0 in
        let slot_end :=
          if hour + 1 <? 24 then
            match mk_time (hour + 1) 0 with
            | Some t1 => Some (_combine_dt current_date t1)
            | None => None
            end
          else Some (_combine_dt (current_date + 1) 0) in
        match slot_end with
        | None => None
        | Some slot_end' =>
          if slot_start <? now then hour_loop rest current_date slots
          else if (current_date =? date_of now) && (cutoff_time <=? time_of now)
          then hour_loop rest current_date slots
          else if slot_start <? now + 30 then hour_loop rest current_date slots
          else
            match _calculate_slot_capacity hour rider_schedules with
            | None => None
            | Some capacity =>
                let booked := booked_get scheduled_pickups hour in
                let available := Z.max (capacity - booked) 0 in
                if 0 <? available then
                  hour_loop rest current_date
                    (slots ++ [{| start := slot_start; end_ := slot_end';
                                  available_capacity := available |}])
                else hour_loop rest current_date slots
            end
        end
      end
  end.

Fixpoint day_loop (offsets : list Z) (slots : list TimeSlot) : option (list TimeSlot) :=
  match offsets with
  | [] => Some slots
  | day_offset :: rest =>
      let current_date := date_of now + day_offset in
      match hour_loop (py_range (BUSINESS_HOURS_START settings) (BUSINESS_HOURS_END settings))
                      current_date slots with
      | None => None
      | Some slots' => day_loop rest slots'
      end
  end.

End Slots.

(** [get_available_slots]; [None] is the [ValueError] of [time(...)]. *)
Definition get_available_slots (settings : Settings) (now : Z)
  (rider_schedules : list RiderSchedule) (scheduled_pickups : list (Z * Z))
  (days_ahead : Z) : option (list TimeSlot) :=
  match mk_time (BUSINESS_HOURS_END settings - CUTOFF_BUFFER_MIN settings / 60)
                (CUTOFF_BUFFER_MIN settings mod 60) with
  | None => None
  | Some cutoff_time =>
      day_loop settings now rider_schedules scheduled_pickups cutoff_time
               (py_range 0 (days_ahead + 1)) []
  end.

(** What the scheduler promises of a returned slot, for the cutoff
    [cutoff_time] computed by [get_available_slots]. *)
Definition slot_ok (now : Z) (rider_schedules : list RiderSchedule)
  (scheduled_pickups : list (Z * Z)) (cutoff_time : Z) (t : TimeSlot) : Prop :=
  now + 30 <= start t /\
  (exists hour capacity,
     _calculate_slot_capacity hour rider_schedules = Some capacity /\
     start t = date_of (start t) * 1440 + hour * 60 /\
     available_capacity t = capacity - booked_get scheduled_pickups hour /\
     0 < available_capacity t) /\
  (date_of (start t) = date_of now -> time_of now < cutoff_time).

(** [_is_within_business_hours]; [None] is the [ValueError] of [time(...)]. *)
Definition _is_within_business_hours (settings : Settings) (dt : Z) : option bool :=
  match mk_time (BUSINESS_HOURS_START settings) 0, mk_time (BUSINESS_HOURS_END settings) 0 with
  | Some lo, Some hi => Some ((lo <=? time_of dt) && (time_of dt <? hi))
  | _, _ => None
  end.

(** The messages of [get_scheduling_message], with the data they show. *)
Inductive SchedulingMessage :=
| MsgClosed (next_open_hour : Z)        (* "We're closed for today" *)
| MsgCutoffNext (first_slot : TimeSlot) (* "Today's pickup slots are closed" *)
| MsgNoSlotsToday                       (* "No pickup slots available today" *)
| MsgFullyBooked                        (* "All our riders are fully booked" *)
| MsgTodayCount (n : nat)               (* "{n} pickup slots available today!" *)
| MsgNextAvailable (first_slot : TimeSlot).

Definition get_scheduling_message (settings : Settings) (now : Z) (slots : list TimeSlot)
  : option SchedulingMessage :=
  match mk_time (BUSINESS_HOURS_END settings - CUTOFF_BUFFER_MIN settings / 60)
                (CUTOFF_BUFFER_MIN settings mod 60) with
  | None => None
  | Some cutoff_time =>
      match mk_time (BUSINESS_HOURS_END settings) 0 with
      | None => None
      | Some closing =>
          if closing <=? time_of now then Some (MsgClosed (BUSINESS_HOURS_START settings))
          else if cutoff_time <=? time_of now then
            match slots with
            | first_slot :: _ => Some (MsgCutoffNext first_slot)
            | [] => Some MsgNoSlotsToday
            end
          else
            match slots with
            | [] => Some MsgFullyBooked
            | first_slot :: _ =>
                let today_slots := filter (fun s => date_of (start s) =? date_of now) slots in
                match today_slots with
                | [] => Some (MsgNextAvailable first_slot)
                | _ => Some (MsgTodayCount (List.length today_slots))
                end
            end
      end
  end.

(** [determine_time_factor]: [hours_until] is the difference in seconds
    divided by 3600. *)
Definition determine_time_factor (is_express : bool) (pickup_slot now : Z) : string :=
  if is_express then "EXPRESS"
  else if date_of now <? date_of pickup_slot then "NEXT_DAY"
  else if Qle_bool (inject_Z ((pickup_slot - now) * 60) / 3600) 4 then "SAME_DAY"
  else "STANDARD".

End Scheduler.

(** ** Return-trip matcher (src/api/services/route_optimizer.py and the
    [return_trip_check] endpoint of src/api/routers/webhooks.py) *)
Module ReturnTrip.







Section Matcher.
(** [R * c] of the haversine formula of src/api/services/maps.py: the
    great-circle distance in km (trigonometry, left abstract). *)
Variable straight_line : Q -> Q -> Q -> Q -> Q.

(** [haversine_distance]: [round(straight_line * 1.4, 2)]. *)
Definition haversine_distance (lat1 lng1 lat2 lng2 : Q) : Q :=
  round2 (straight_line lat1 lng1 lat2 lng2 * (14 # 10)).




End Matcher.







End ReturnTrip.

(** ** Route optimizer (src/api/services/route_optimizer.py) and the
    parcel grouping of [optimize_routes] (src/api/routers/webhooks.py) *)
Module RouteOptimizer.

(** [int(x)] of a float: truncation toward zero. *)
Definition py_int (q : Q) : Z := Z.quot (Qnum q) (Zpos (Qden q)).

(** A delivery point dict. *)
Record DeliveryPoint := { dp_lat : Q; dp_lng : Q; dp_order_id : nat }.

Record OptimizedRoute := {
  sequence : list nat;
  stop_details : list DeliveryPoint;
  total_distance_km : Q;
  total_duration_min : Z;
  savings_vs_naive_km : Q
}.

(** [xs[i]] where an [IndexError] is [None]. *)
Definition py_index {A} (xs : list A) (i : nat) : option A := nth_error xs i.

(** All the results, or the first failure. *)
Fixpoint all_some {A} (l : list (option A)) : option (list A) :=
  match l with
  | [] => Some []
  | None :: _ => None
  | Some x :: rest => match all_some rest with Some xs => Some (x :: xs) | None => None end
  end.

(** [matrix[i][j]] of an integer matrix. *)
Definition mat_get (m : list (list Z)) (i j : nat) : Z := nth j (nth i m []) 0%Z.

(** The length of a path through the matrix: the sum of its arcs. *)
Fixpoint path_length (m : list (list Z)) (path : list nat) : Z :=
  match path with
  | a :: ((b :: _) as rest) => (mat_get m a b + path_length m rest)%Z
  | _ => 0%Z
  end.

Section Optimizer.
Variable haversine_distance : Q -> Q -> Q -> Q -> Q.

(** One cell of [_build_distance_matrix_from_points]; the API matrix
    cell is its [distance_km] value, [None] when missing. *)
Definition matrix_cell (points : list (Q * Q)) (api_matrix : option (list (list (option Q))))
  (i j : nat) : option Z :=
  if Nat.eqb i j then Some 0%Z
  else
    let from_haversine :=
      match py_index points i, py_index points j with
      | Some (la1, ln1), Some (la2, ln2) => Some (py_int (haversine_distance la1 ln1 la2 ln2 * 1000))
      | _, _ => None
      end in
    match api_matrix with
    | Some ((_ :: _) as am) =>
        match py_index am i with
        | None => None
        | Some row =>
            match py_index row j with
            | None => None
            | Some cell =>
                match cell with
                | Some d => if negb (Qeq_bool d 0) then Some (py_int (d * 1000)) else from_haversine
                | None => from_haversine
                end
            end
        end
    | _ => from_haversine
    end.

(** [_build_distance_matrix_from_points]; [None] is an [IndexError]. *)
Definition _build_distance_matrix_from_points (points : list (Q * Q))
  (api_matrix : option (list (list (option Q)))) : option (list (list Z)) :=
  let n := List.length points in
  all_some (map (fun i => all_some (map (fun j => matrix_cell points api_matrix i j) (seq 0 n)))
                (seq 0 n)).

(** The naive distance loop of [optimize_route]. *)
Definition naive_distance (m : list (list Z)) (n : nat) : Z :=
  (fold_left (fun acc i => acc + mat_get m i (S i)) (seq 0 (n - 1)) 0 + mat_get m (n - 1) 0)%Z.

(** The OR-Tools solver is external: [solve] returns the nodes of the
    tour it found from the depot (node 0), before the return to it, or
    [None] when there is no solution. *)
Variable solve : list (list Z) -> option (list nat).

(** The stops of a tour: the delivery points of its non-depot nodes. *)
Definition stops_of (delivery_points : list DeliveryPoint) (seq' : list nat) : list DeliveryPoint :=
  fold_left (fun acc node_idx =>
               if (0 <? node_idx)%nat && (node_idx <=? List.length delivery_points)%nat then
                 acc ++ [nth (node_idx - 1) delivery_points {| dp_lat := 0; dp_lng := 0; dp_order_id := 0 |}]
               else acc) seq' [].

(** [optimize_route]; [None] is an exception of the matrix build. *)
Definition optimize_route (depot : Q * Q) (delivery_points : list DeliveryPoint)
  (api_matrix : option (list (list (option Q)))) : option OptimizedRoute :=
  match delivery_points with
  | [] => Some {| sequence := []; stop_details := []; total_distance_km := 0;
                  total_duration_min := 0; savings_vs_naive_km := 0 |}
  | [p] =>
      let d := haversine_distance (fst depot) (snd depot) (dp_lat p) (dp_lng p) in
      Some {| sequence := [0; 1; 0]%nat; stop_details := [p];
              total_distance_km := round2 (d * 2);
              total_duration_min := py_int (d * 2 / 25 * 60);
              savings_vs_naive_km := 0 |}
  | _ =>
      let all_points := depot :: map (fun p => (dp_lat p, dp_lng p)) delivery_points in
      let n := List.length all_points in
      match _build_distance_matrix_from_points all_points api_matrix with
      | None => None
      | Some dist_matrix =>
          let naive := naive_distance dist_matrix n in
          match solve dist_matrix with
          | None =>
              Some {| sequence := seq 0 n ++ [0%nat];
                      stop_details := delivery_points;
                      total_distance_km := round2 (inject_Z naive / 1000);
                      total_duration_min := py_int (inject_Z naive / 1000 / 25 * 60);
                      savings_vs_naive_km := 0 |}
          | Some nodes =>
              let sequence' := nodes ++ [0%nat] in
              let optimized_distance := path_length dist_matrix sequence' in
              let total_km := round2 (inject_Z optimized_distance / 1000) in
              let naive_km := round2 (inject_Z naive / 1000) in
              let savings := round2 (naive_km - total_km) in
              Some {| sequence := sequence';
                      stop_details := stops_of delivery_points sequence';
                      total_distance_km := total_km;
                      total_duration_min := py_int (total_km / 25 * 60);
                      savings_vs_naive_km := py_max savings 0 |}
          end
      end
  end.

End Optimizer.

(** [range(a, b, k)]; [None] is the [ValueError] of a zero step. *)
Definition py_range_step (a b k : Z) : option (list Z) :=
  if (k =? 0)%Z then None
  else
    let len := if (0 <? k)%Z then Z.max 0 ((b - a + k - 1) / k)
               else Z.max 0 ((a - b - k - 1) / (- k)) in
    Some (map (fun i => a + Z.of_nat i * k)%Z (seq 0 (Z.to_nat len))).

(** [xs[i:j]] for bounds [0 <= i <= j]. *)
Definition py_slice {A} (xs : list A) (i j : Z) : list A :=
  firstn (Z.to_nat j - Z.to_nat i) (skipn (Z.to_nat i) xs).

(** The grouping of [optimize_routes]:
    [[parcels[i:i + max_per_route] for i in range(0, len(parcels), max_per_route)]]. *)
Definition parcel_groups {A} (parcels : list A) (max_per_route : Z) : option (list (list A)) :=
  match py_range_step 0 (Z.of_nat (List.length parcels)) max_per_route with
  | None => None
  | Some starts => Some (map (fun i => py_slice parcels i (i + max_per_route)%Z) starts)
  end.

End RouteOptimizer.

(** ** Concrete inputs used by the examples below *)
Module Fixtures.
Import Orders.

Definition order_en_route : Order :=
  {| id := 1; status := PICKUP_EN_ROUTE; pickup_rider_id := Some 7%nat;
     pickup_address := "MG Road"; pickup_lat := Some (1297 # 100); pickup_lng := Some (7759 # 100);
     pickup_confirmed_at := None; delivered_at := None; cancelled_at := None |}.

Definition order_cancelled : Order :=
  {| id := 2; status := CANCELLED; pickup_rider_id := None;
     pickup_address := "MG Road"; pickup_lat := Some (1297 # 100); pickup_lng := Some (7759 # 100);
     pickup_confirmed_at := None; delivered_at := None; cancelled_at := Some 50%Z |}.

Definition order_paid : Order :=
  {| id := 3; status := PAYMENT_CONFIRMED; pickup_rider_id := None;
     pickup_address := "MG Road"; pickup_lat := Some (1297 # 100); pickup_lng := Some (7759 # 100);
     pickup_confirmed_at := None; delivered_at := None; cancelled_at := None |}.

Definition rider_seven : Rider :=
  {| rider_id := 7; rider_status := "ON_DUTY"; current_lat := Some (1290 # 100);
     current_lng := Some (7760 # 100); rider_warehouse := None; current_load := Some 0%nat |}.

Definition db0 : Db :=
  {| orders := [order_en_route; order_cancelled; order_paid]; events := [];
     riders := [rider_seven] |}.

(** A pickup OTP "123456" freshly issued for order 1. *)
Definition otp_store0 : Otp.Store := [((1%nat, "pickup"%string), {| Otp.hash := "123456"; Otp.attempts := 0 |})].

(** Stand-ins for the external geo services. *)
Definition no_geocode (_ : string) : option (Q * Q) := None.
Definition road_3km (_ _ _ _ : Q) : option (option Q * option Z) := Some (Some 3, Some 10%Z).
Definition manhattan (la1 ln1 la2 ln2 : Q) : Q := Qabs (la1 - la2) + Qabs (ln1 - ln2).

(** A planar stand-in for the great-circle distance: 111 km per degree
    along each axis. *)
Definition grid_km (la1 ln1 la2 ln2 : Q) : Q := 111 * (Qabs (la1 - la2) + Qabs (ln1 - ln2)).

(** A road-distance service answering the grid distance and 10 minutes. *)
Definition road_grid (la ln plat plng : Q) : option (option Q * option Z) :=
  Some (Some (grid_km la ln plat plng), Some 10%Z).

(** A confirmed order whose pickup address was never geocoded. *)
Definition order_unlocated : Order :=
  {| id := 4; status := PAYMENT_CONFIRMED; pickup_rider_id := None;
     pickup_address := "MG Road"; pickup_lat := None; pickup_lng := None;
     pickup_confirmed_at := None; delivered_at := None; cancelled_at := None |}.

(** A geocoder that finds every address at (12.97, 77.59). *)
Definition geocode_mg (_ : string) : option (Q * Q) := Some (1297 # 100, 7759 # 100).

Definition rider_off_duty : Rider :=
  {| rider_id := 5; rider_status := "OFF_DUTY"; current_lat := Some (1297 # 100);
     current_lng := Some (7759 # 100); rider_warehouse := None; current_load := Some 0%nat |}.


(** Rider 9 at (12.97, 77.59), returning to the depot at (12.97, 77.69). *)
Definition rider_nine : Rider :=
  {| rider_id := 9; rider_status := "ON_DUTY"; current_lat := Some (1297 # 100);
     current_lng := Some (7759 # 100); rider_warehouse := Some (1297 # 100, 7769 # 100);
     current_load := Some 1%nat |}.





Definition day_shift : Scheduler.RiderSchedule :=
  {| Scheduler.shift_start := 8 * 60; Scheduler.shift_end := 20 * 60;
     Scheduler.max_pickups_per_hour := None |}.

End Fixtures.

(** * Properties *)

(** ** Rounding and flooring *)
Module PricingFacts.
Import Pricing.

Lemma round_half_even_lower (q : Q) (n : Z) :
  inject_Z n <= q -> (n <= round_half_even q)%Z.
Proof.
  intros H.
  assert (Hf : (n <= Qfloor q)%Z).
  { rewrite <- (Qfloor_Z n). apply Qfloor_resp_le. exact H. }
  unfold round_half_even.
  destruct (Qlt_bool _ _); [lia|].
  destruct (Qlt_bool _ _); [lia|].
  destruct (Z.even _); lia.
Qed.

Lemma round2_lower (q : Q) (n : Z) :
  inject_Z n <= q -> inject_Z n <= round2 q.
Proof.
  intros H. unfold round2.
  assert (H100 : inject_Z (n * 100) <= q * 100).
  { rewrite inject_Z_mult. apply Qmult_le_compat_r; [exact H|].
    unfold Qle; simpl; lia. }
  apply round_half_even_lower in H100.
  apply Qle_shift_div_l; [reflexivity|].
  unfold Qle; simpl. lia.
Qed.

Lemma py_max_right (a b : Q) : b <= py_max a b.
Proof.
  unfold py_max, Qlt_bool.
  destruct (Qle_bool b a) eqn:E; simpl.
  - apply Qle_bool_iff. exact E.
  - apply Qle_refl.
Qed.

Lemma minimum_charge_le_round2_max (x : Q) :
  MINIMUM_CHARGE <= round2 (py_max x MINIMUM_CHARGE).
Proof.
  change MINIMUM_CHARGE with (inject_Z 35).
  apply round2_lower. apply py_max_right.
Qed.

(** C2: for every input of [calculate_price] (distance, duration, weight
    tier, time factor, surge multiplier and reason, addons, batch flag,
    subscription plan and free deliveries left), the returned
    [total_cost] is at least the minimum charge of 35. *)
Theorem total_cost_at_least_minimum_charge
  (distance_km' : Q) (duration_min' : Z) (weight_tier time_factor_key' : string)
  (surge_multiplier' : Q) (surge_reason' : option SurgeReason) (addons : list string)
  (is_batch_eligible : bool) (subscription_plan : option string)
  (free_deliveries_remaining : Z) :
  MINIMUM_CHARGE <= total_cost (calculate_price distance_km' duration_min' weight_tier
    time_factor_key' surge_multiplier' surge_reason' addons is_batch_eligible
    subscription_plan free_deliveries_remaining).
Proof.
  unfold calculate_price; cbn [total_cost].
  apply minimum_charge_le_round2_max.
Qed.

(** C3 (as amended): for a batch-eligible order on a subscription plan
    [plan] with no free delivery left, the batch discount and the plan's
    percentage discount are both taken from the same surged cost and
    subtracted together (not compounded); the total is that difference
    plus the addons, floored at the minimum charge and rounded, and is
    never negative. *)
Theorem batch_and_subscription_discounts_additive
  (distance_km' : Q) (duration_min' : Z) (weight_tier time_factor_key' : string)
  (surge_multiplier' : Q) (surge_reason' : option SurgeReason) (addons : list string)
  (plan : string) (free_deliveries_remaining : Z)
  (Hplan : String.eqb plan "" = false) (Hfree : (free_deliveries_remaining <= 0)%Z) :
  let S := surged distance_km' weight_tier time_factor_key' surge_multiplier' in
  let pb := calculate_price distance_km' duration_min' weight_tier time_factor_key'
              surge_multiplier' surge_reason' addons true (Some plan)
              free_deliveries_remaining in
  batch_discount pb = round2 (S * BATCH_DISCOUNT_PCT) /\
  subscription_discount pb = round2 (S * get_or (plan_discount_pct plan) 0) /\
  total_cost pb =
    round2 (py_max (S + addons_total addons - S * BATCH_DISCOUNT_PCT
                    - S * get_or (plan_discount_pct plan) 0) MINIMUM_CHARGE) /\
  0 <= total_cost pb.
Proof.
  intros S pb. subst S pb.
  assert (Hb : (0 <? free_deliveries_remaining)%Z = false) by (apply Z.ltb_ge; lia).
  unfold calculate_price, str_truthy, surged; cbn [total_cost batch_discount subscription_discount].
  rewrite Hplan, Hb. cbn -[round2 py_max].
  split; [reflexivity|]. split; [reflexivity|]. split; [reflexivity|].
  apply Qle_trans with MINIMUM_CHARGE; [unfold Qle; simpl; lia|].
  apply minimum_charge_le_round2_max.
Qed.

Lemma batch_and_subscription_discounts_additive_witness :
  String.eqb "ENTERPRISE" "" = false /\ (0 <= 0)%Z /\
  total_cost (calculate_price 10 20 "LIGHT" "STANDARD" 1 None [] true (Some "ENTERPRISE"%string) 0)
  = round2 (py_max (surged 10 "LIGHT" "STANDARD" 1 + addons_total []
                    - surged 10 "LIGHT" "STANDARD" 1 * BATCH_DISCOUNT_PCT
                    - surged 10 "LIGHT" "STANDARD" 1 * get_or (plan_discount_pct "ENTERPRISE") 0)
                   MINIMUM_CHARGE).
Proof.
  split; [reflexivity|]. split; [lia|].
  apply (batch_and_subscription_discounts_additive 10 20 "LIGHT" "STANDARD" 1 None []
           "ENTERPRISE" 0); [reflexivity | lia].
Defined.

(** C3 as stated fails: with a batch-eligible ENTERPRISE order of surged
    cost 100 (10 km, LIGHT, STANDARD, no surge), compounding the 15%
    batch and the 10% subscription discounts gives 76.5, while
    [calculate_price] returns 75 (= 100 - 15 - 10). *)
Lemma discounts_not_multiplicative :
  ~ (total_cost (calculate_price 10 20 "LIGHT" "STANDARD" 1 None [] true
                   (Some "ENTERPRISE"%string) 0)
     == round2 (py_max (100 * (1 - BATCH_DISCOUNT_PCT) * (1 - (10 # 100))) MINIMUM_CHARGE)).
Proof.
  intros H. apply Qeq_bool_iff in H. vm_compute in H. discriminate H.
Qed.

(** C10: [calculate_surge] is total; with no positive rider count it
    returns 1.6 with the [NoRiders] reason, otherwise the multiplier is
    one of 1.0, 1.2, 1.4, 1.6 and a reason is returned exactly when the
    multiplier exceeds 1.0. *)
Theorem calculate_surge_bounded (active_orders available_riders : Z) :
  if (available_riders <=? 0)%Z then
    calculate_surge active_orders available_riders = (16 # 10, Some (NoRiders active_orders))
  else
    let '(m, reason) := calculate_surge active_orders available_riders in
    (m = 1 \/ m = 12 # 10 \/ m = 14 # 10 \/ m = 16 # 10) /\
    (reason <> None <-> Qlt_bool 1 m = true).
Proof.
  unfold calculate_surge.
  destruct (available_riders <=? 0)%Z; [reflexivity|].
  unfold SURGE_BANDS; cbn [surge_loop].
  set (ratio := inject_Z active_orders / inject_Z available_riders).
  destruct (Qlt_bool ratio 2); cbn.
  { split; [left; reflexivity|]. split; [intros H; congruence | discriminate]. }
  destruct (Qlt_bool ratio 4); cbn.
  { split; [right; left; reflexivity|]. split; [reflexivity | discriminate]. }
  destruct (Qlt_bool ratio 6); cbn.
  { split; [right; right; left; reflexivity|]. split; [reflexivity | discriminate]. }
  destruct (Qlt_bool ratio 999); cbn.
  { split; [right; right; right; reflexivity|]. split; [reflexivity | discriminate]. }
  split; [right; right; right; reflexivity|]. split; [reflexivity | discriminate].
Qed.

Lemma Qle_bool_compat (a a' b b' : Q) : a == a' -> b == b' -> Qle_bool a b = Qle_bool a' b'.
Proof.
  intros Ha Hb.
  destruct (Qle_bool a b) eqn:E1, (Qle_bool a' b') eqn:E2; try reflexivity.
  - apply Qle_bool_iff in E1. rewrite Ha, Hb in E1. apply Qle_bool_iff in E1. congruence.
  - apply Qle_bool_iff in E2. rewrite <- Ha, <- Hb in E2. apply Qle_bool_iff in E2. congruence.
Qed.

Lemma Qlt_bool_compat (a a' b b' : Q) : a == a' -> b == b' -> Qlt_bool a b = Qlt_bool a' b'.
Proof. intros Ha Hb. unfold Qlt_bool. rewrite (Qle_bool_compat b b' a a' Hb Ha). reflexivity. Qed.

Lemma round_half_even_compat (x y : Q) : x == y -> round_half_even x = round_half_even y.
Proof.
  intros H. unfold round_half_even.
  rewrite (Qfloor_comp x y H).
  assert (Hd : x - inject_Z (Qfloor y) == y - inject_Z (Qfloor y)) by (rewrite H; reflexivity).
  rewrite (Qlt_bool_compat _ _ (1 # 2) (1 # 2) Hd (Qeq_refl _)).
  rewrite (Qlt_bool_compat (1 # 2) (1 # 2) _ _ (Qeq_refl _) Hd).
  reflexivity.
Qed.

Lemma round2_compat (x y : Q) : x == y -> round2 x = round2 y.
Proof.
  intros H. unfold round2. rewrite (round_half_even_compat (x * 100) (y * 100)); [reflexivity|].
  rewrite H. reflexivity.
Qed.

End PricingFacts.

(** ** Order status endpoints *)
Module OrderFacts.
Import Orders Otp Endpoints.

Lemma find_put_order (db : Db) (o o2 : Order) (oid : nat) :
  find_order db oid = Some o -> id o2 = oid ->
  find_order (put_order db o2) oid = Some o2.
Proof.
  unfold find_order, put_order; cbn [orders].
  induction (orders db) as [|o' rest IH]; cbn; [discriminate|].
  intros Hf Hid.
  destruct (Nat.eqb (id o') oid) eqn:E.
  - apply Nat.eqb_eq in E. rewrite E, <- Hid, Nat.eqb_refl. cbn. rewrite Hid, Nat.eqb_refl. reflexivity.
  - assert (E' : Nat.eqb (id o') (id o2) = false) by (rewrite Hid; exact E).
    rewrite E'. cbn. rewrite E. apply IH; assumption.
Qed.

Lemma find_order_add_event (db : Db) (e : OrderEvent) (oid : nat) :
  find_order (add_event db e) oid = find_order db oid.
Proof. reflexivity. Qed.

(** C1 (as amended): [update_order_status] checks no transition.  For a
    missing order it answers 404 and changes nothing; for an existing
    order it accepts every requested status: the order takes that status
    and exactly one event from the old status to the requested one, with
    the request's actor, is appended. *)
Theorem update_order_status_accepts_any (db : Db) (order_id : nat)
  (data : OrderStatusUpdate) (now : Z) :
  match find_order db order_id with
  | None => update_order_status db order_id data now = (StatusNotFound, db)
  | Some o =>
      let '(resp, db') := update_order_status db order_id data now in
      resp = StatusChanged order_id (status o) (req_status data) /\
      option_map status (find_order db' order_id) = Some (req_status data) /\
      events db' = events db ++
        [{| ev_order_id := id o; from_status := Some (status o);
            to_status := req_status data; actor_type := req_actor_type data;
            actor_id := req_actor_id data; created_at := now |}]
  end.
Proof.
  unfold update_order_status.
  destruct (find_order db order_id) as [o|] eqn:Hf; [|reflexivity].
  assert (Hid : id o = order_id).
  { unfold find_order in Hf. apply find_some in Hf. destruct Hf as [_ H].
    apply Nat.eqb_eq. exact H. }
  split; [reflexivity|]. split.
  - rewrite find_order_add_event.
    rewrite (find_put_order db o _ order_id Hf);
      [| destruct (req_status data); exact Hid].
    destruct (req_status data); reflexivity.
  - unfold add_event; cbn [events]. unfold put_order; cbn [events].
    destruct (req_status data); reflexivity.
Qed.

(** C1 as stated fails: the cancelled order 2 is moved back to
    PAYMENT_CONFIRMED, with no error. *)
Lemma terminal_order_transition_accepted :
  let '(resp, db1) :=
    update_order_status Fixtures.db0 2
      {| req_status := PAYMENT_CONFIRMED; req_actor_type := "SYSTEM"; req_actor_id := None |} 100 in
  resp = StatusChanged 2 CANCELLED PAYMENT_CONFIRMED /\
  option_map status (find_order db1 2) = Some PAYMENT_CONFIRMED.
Proof. split; reflexivity. Qed.

(** C8 (code defect): verifying the pickup OTP of order 1, which is
    PICKUP_EN_ROUTE, appends an event whose from-state is PICKED_UP, the
    new status, instead of the prior PICKUP_EN_ROUTE: [from_status] is
    read from [order.status] after it was overwritten. *)
Lemma verify_order_otp_from_status_is_new_status :
  let '(res, st1, db1) :=
    verify_order_otp Fixtures.otp_store0 Fixtures.db0
      {| v_order_id := 1; v_otp_type := "pickup"; v_otp_code := "123456"; v_rider_id := 7 |} 200 in
  status Fixtures.order_en_route = PICKUP_EN_ROUTE /\
  valid res = true /\
  events db1 =
    [{| ev_order_id := 1; from_status := Some PICKED_UP; to_status := PICKED_UP;
        actor_type := "RIDER"; actor_id := Some 7%nat; created_at := 200 |}].
Proof. repeat split; reflexivity. Qed.

(** In general, every event appended by [verify_order_otp] has equal
    from- and to-states. *)
Lemma verify_order_otp_event_from_eq_to (st : Store) (db : Db) (data : OTPVerifyRequest)
  (now : Z) :
  let '(_, _, db1) := verify_order_otp st db data now in
  events db1 = events db \/
  exists e, events db1 = events db ++ [e] /\ from_status e = Some (to_status e).
Proof.
  unfold verify_order_otp.
  destruct (verify_otp st (v_order_id data) (v_otp_type data) (v_otp_code data)) as [res st1].
  destruct (valid res); [|left; reflexivity].
  destruct (find_order db (v_order_id data)) as [o|]; [|left; reflexivity].
  right. eexists. split; [reflexivity|]. cbn.
  destruct (String.eqb (v_otp_type data) "pickup"); reflexivity.
Qed.

End OrderFacts.

(** ** OTP service *)
Module OtpFacts.
Import Otp.

Lemma key_eqb_refl (k : Key) : key_eqb k k = true.
Proof. destruct k; unfold key_eqb; cbn. rewrite Nat.eqb_refl, String.eqb_refl. reflexivity. Qed.

Lemma hgetall_delete_same (s : Store) (k : Key) : hgetall (delete s k) k = None.
Proof.
  induction s as [|[k' e] rest IH]; cbn; [reflexivity|].
  destruct (key_eqb k k') eqn:E; cbn; [exact IH|].
  rewrite E. exact IH.
Qed.

Lemma hgetall_hset_same (s : Store) (k : Key) (e : OtpEntry) : hgetall (hset s k e) k = Some e.
Proof. unfold hset; cbn. rewrite key_eqb_refl. reflexivity. Qed.

Lemma hgetall_hincrby (s : Store) (k : Key) (e : OtpEntry) (n : Z) :
  hgetall s k = Some e ->
  hgetall (hincrby_attempts s k n) k = Some {| hash := hash e; attempts := (attempts e + n)%Z |}.
Proof. intros H. unfold hincrby_attempts. rewrite H. apply hgetall_hset_same. Qed.

(** One counted attempt: below 3 recorded attempts, a wrong code keeps
    the entry with its counter raised by one. *)
Lemma verify_wrong_step (s : Store) (oid : nat) (typ p : string) (e : OtpEntry) :
  hgetall s (oid, typ) = Some e -> (attempts e < 3)%Z -> checkpw p (hash e) = false ->
  valid (fst (verify_otp s oid typ p)) = false /\
  hgetall (snd (verify_otp s oid typ p)) (oid, typ) =
    Some {| hash := hash e; attempts := (attempts e + 1)%Z |}.
Proof.
  intros H Hlt Hc. unfold verify_otp. rewrite H.
  replace (3 <=? attempts e)%Z with false by (symmetry; apply Z.leb_gt; lia).
  rewrite Hc. cbn. split; [reflexivity|]. apply hgetall_hincrby. exact H.
Qed.

(** C5 (as amended): for the entry of key [(order_id, otp_type)]:
    (1) while fewer than 3 attempts are recorded, a verification with the
    right code succeeds and deletes the entry, and one with a wrong code
    fails and raises the counter by one; (2) once 3 attempts are recorded,
    every verification fails with [TooManyAttempts] and leaves the store
    unchanged; (3) after a fresh code and three wrong attempts, any code,
    the right one included, fails, until [generate_otp] writes a new
    entry with a zero counter. *)
Theorem otp_attempt_limit_and_single_use (s : Store) (order_id : nat) (otp_type : string) :
  (forall e p, hgetall s (order_id, otp_type) = Some e -> (attempts e < 3)%Z ->
     let '(res, s') := verify_otp s order_id otp_type p in
     if checkpw p (hash e) then
       valid res = true /\ hgetall s' (order_id, otp_type) = None
     else
       valid res = false /\
       hgetall s' (order_id, otp_type) = Some {| hash := hash e; attempts := (attempts e + 1)%Z |}) /\
  (forall e p, hgetall s (order_id, otp_type) = Some e -> (3 <= attempts e)%Z ->
     verify_otp s order_id otp_type p =
       ({| valid := false; error := Some TooManyAttempts; remaining := 0 |}, s)) /\
  (forall code w1 w2 w3 c4 code',
     String.eqb w1 code = false -> String.eqb w2 code = false -> String.eqb w3 code = false ->
     let s0 := snd (generate_otp s order_id otp_type code) in
     let s1 := snd (verify_otp s0 order_id otp_type w1) in
     let s2 := snd (verify_otp s1 order_id otp_type w2) in
     let s3 := snd (verify_otp s2 order_id otp_type w3) in
     valid (fst (verify_otp s0 order_id otp_type w1)) = false /\
     valid (fst (verify_otp s1 order_id otp_type w2)) = false /\
     valid (fst (verify_otp s2 order_id otp_type w3)) = false /\
     verify_otp s3 order_id otp_type c4 =
       ({| valid := false; error := Some TooManyAttempts; remaining := 0 |}, s3) /\
     hgetall (snd (generate_otp s3 order_id otp_type code')) (order_id, otp_type) =
       Some {| hash := code'; attempts := 0 |}).
Proof.
  split; [|split].
  - intros e p H Hlt. unfold verify_otp. rewrite H.
    replace (3 <=? attempts e)%Z with false by (symmetry; apply Z.leb_gt; lia).
    destruct (checkpw p (hash e)); cbn.
    + split; [reflexivity|]. apply hgetall_delete_same.
    + split; [reflexivity|]. apply hgetall_hincrby. exact H.
  - intros e p H Hge. unfold verify_otp. rewrite H.
    replace (3 <=? attempts e)%Z with true by (symmetry; apply Z.leb_le; lia).
    reflexivity.
  - intros code w1 w2 w3 c4 code' H1 H2 H3 s0 s1 s2 s3.
    assert (G0 : hgetall s0 (order_id, otp_type) = Some {| hash := code; attempts := 0 |})
      by apply hgetall_hset_same.
    destruct (verify_wrong_step s0 order_id otp_type w1 _ G0 ltac:(cbn; lia) H1) as [V1 G1].
    destruct (verify_wrong_step s1 order_id otp_type w2 _ G1 ltac:(cbn; lia) H2) as [V2 G2].
    destruct (verify_wrong_step s2 order_id otp_type w3 _ G2 ltac:(cbn; lia) H3) as [V3 G3].
    assert (G3' : hgetall s3 (order_id, otp_type) = Some {| hash := code; attempts := 3 |})
      by exact G3.
    split; [exact V1|]. split; [exact V2|]. split; [exact V3|]. split.
    + unfold verify_otp at 1. rewrite G3'. reflexivity.
    + apply hgetall_hset_same.
Qed.

Lemma otp_attempt_limit_and_single_use_witness :
  verify_otp (snd (verify_otp (snd (verify_otp (snd (verify_otp Fixtures.otp_store0 1 "pickup" "000000"))
                                     1 "pickup" "111111")) 1 "pickup" "222222")) 1 "pickup" "123456"
  = ({| valid := false; error := Some TooManyAttempts; remaining := 0 |},
     snd (verify_otp (snd (verify_otp (snd (verify_otp Fixtures.otp_store0 1 "pickup" "000000"))
                                     1 "pickup" "111111")) 1 "pickup" "222222")).
Proof.
  destruct (otp_attempt_limit_and_single_use [] 1 "pickup") as [_ [_ H]].
  destruct (H "123456"%string "000000"%string "111111"%string "222222"%string "123456"%string
              "654321"%string eq_refl eq_refl eq_refl)
    as [_ [_ [_ [H4 _]]]].
  exact H4.
Defined.

(** C5 as stated fails: after three wrong attempts on a fresh code the
    counter is 3, and a fourth attempt (here with the right code) is
    rejected without incrementing it. *)
Lemma exhausted_attempt_not_counted :
  let s3 := snd (verify_otp (snd (verify_otp (snd (verify_otp Fixtures.otp_store0 1 "pickup" "000000"))
                                     1 "pickup" "111111")) 1 "pickup" "222222") in
  hgetall s3 (1%nat, "pickup"%string) = Some {| hash := "123456"; attempts := 3 |} /\
  hgetall (snd (verify_otp s3 1 "pickup" "123456")) (1%nat, "pickup"%string) =
    Some {| hash := "123456"; attempts := 3 |}.
Proof. split; reflexivity. Qed.

End OtpFacts.

(** ** Rider assignment endpoint *)
Module AssignFacts.
Import Orders Endpoints.

(** C4 (as amended): calling [assign_rider_to_order] on an order that
    already has a pickup rider [r] changes nothing (no order, rider load
    or event is written); it answers [already_assigned] with [r] when the
    order is still PAYMENT_CONFIRMED and fails with HTTP 400 in every
    other status. *)
Theorem assign_rider_to_assigned_order_no_effect
  (geocode : string -> option (Q * Q))
  (get_distance : Q -> Q -> Q -> Q -> option (option Q * option Z))
  (haversine_distance : Q -> Q -> Q -> Q -> Q)
  (db : Db) (order_id : nat) (now : Z) (o : Order) (r : nat)
  (Hfound : find_order db order_id = Some o) (Hrider : pickup_rider_id o = Some r) :
  assign_rider_to_order geocode get_distance haversine_distance db order_id now =
    (if OrderStatus_beq (status o) PAYMENT_CONFIRMED then AlreadyAssigned r
     else AssignHttpError 400, db).
Proof.
  unfold assign_rider_to_order. rewrite Hfound.
  destruct (OrderStatus_beq (status o) PAYMENT_CONFIRMED); cbn; [rewrite Hrider|]; reflexivity.
Qed.

Lemma assign_rider_to_assigned_order_no_effect_witness :
  assign_rider_to_order Fixtures.no_geocode Fixtures.road_3km Fixtures.manhattan
    Fixtures.db0 1 100 = (AssignHttpError 400, Fixtures.db0).
Proof.
  exact (assign_rider_to_assigned_order_no_effect Fixtures.no_geocode Fixtures.road_3km
           Fixtures.manhattan Fixtures.db0 1 100 Fixtures.order_en_route 7 eq_refl eq_refl).
Defined.

(** C4 as stated fails: assigning order 3 picks rider 7 and moves the
    order to PICKUP_RIDER_ASSIGNED; calling the endpoint again on the now
    assigned order does not return rider 7 but fails with HTTP 400. *)
Lemma second_assignment_call_rejected :
  let '(r1, db1) := assign_rider_to_order Fixtures.no_geocode Fixtures.road_3km
                      Fixtures.manhattan Fixtures.db0 3 100 in
  let '(r2, db2) := assign_rider_to_order Fixtures.no_geocode Fixtures.road_3km
                      Fixtures.manhattan db1 3 101 in
  r1 = Assigned {| a_rider_id := 7; a_distance_km := 3; a_eta_min := Some 10%Z |} /\
  option_map pickup_rider_id (find_order db1 3) = Some (Some 7%nat) /\
  r2 = AssignHttpError 400 /\ db2 = db1.
Proof. vm_compute. repeat split; reflexivity. Qed.

End AssignFacts.

(** ** Pickup scheduler *)
Module SchedulerFacts.
Import Scheduler.
Open Scope Z_scope.

Lemma mk_time_spec (h m t : Z) :
  mk_time h m = Some t -> t = h * 60 + m /\ 0 <= t < 1440.
Proof.
  unfold mk_time. intros H.
  destruct ((0 <=? h) && (h <? 24) && (0 <=? m) && (m <? 60)) eqn:E; [|discriminate].
  injection H as <-.
  repeat rewrite andb_true_iff in E. destruct E as [[[E1 E2] E3] E4].
  apply Z.leb_le in E1. apply Z.ltb_lt in E2. apply Z.leb_le in E3. apply Z.ltb_lt in E4.
  split; [reflexivity| lia].
Qed.

Lemma date_of_combine (d t : Z) : 0 <= t < 1440 -> date_of (_combine_dt d t) = d.
Proof.
  intros H. unfold date_of, _combine_dt.
  rewrite Z.div_add_l by lia.
  rewrite Z.div_small by lia. lia.
Qed.

Lemma hour_loop_ok (now : Z) (rs : list RiderSchedule) (sp : list (Z * Z)) (cutoff : Z)
  (hours : list Z) (current_date : Z) :
  forall slots res,
  hour_loop now rs sp cutoff hours current_date slots = Some res ->
  Forall (slot_ok now rs sp cutoff) slots -> Forall (slot_ok now rs sp cutoff) res.
Proof.
  induction hours as [|hour rest IH]; intros slots res Hrun Hok; cbn in Hrun.
  - injection Hrun as <-. exact Hok.
  - destruct (mk_time hour 0) as [t0|] eqn:Ht0; [|discriminate].
    apply mk_time_spec in Ht0. destruct Ht0 as [Ht0 Hrange].
    set (slot_start := _combine_dt current_date t0) in Hrun.
    assert (Hdate : date_of slot_start = current_date) by (apply date_of_combine; exact Hrange).
    destruct (if hour + 1 <? 24 then _ else _) as [slot_end'|]; [|discriminate].
    destruct (slot_start <? now) eqn:E1; [exact (IH _ _ Hrun Hok)|].
    destruct ((current_date =? date_of now) && (cutoff <=? time_of now)) eqn:E2;
      [exact (IH _ _ Hrun Hok)|].
    destruct (slot_start <? now + 30) eqn:E3; [exact (IH _ _ Hrun Hok)|].
    destruct (_calculate_slot_capacity hour rs) as [capacity|] eqn:Hcap; [|discriminate].
    destruct (0 <? Z.max (capacity - booked_get sp hour) 0) eqn:E4; [|exact (IH _ _ Hrun Hok)].
    apply (IH _ _ Hrun). apply Forall_app. split; [exact Hok|].
    constructor; [|constructor].
    apply Z.ltb_ge in E3. apply Z.ltb_lt in E4.
    unfold slot_ok; cbn [start available_capacity]. split; [lia|]. split.
    + exists hour, capacity. split; [exact Hcap|]. split.
      * rewrite Hdate. unfold slot_start, _combine_dt. lia.
      * split; lia.
    + rewrite Hdate. intros Hd. apply Z.eqb_eq in Hd. rewrite Hd in E2. cbn in E2.
      apply Z.leb_gt in E2. exact E2.
Qed.

Lemma day_loop_ok (settings : Settings) (now : Z) (rs : list RiderSchedule)
  (sp : list (Z * Z)) (cutoff : Z) (offsets : list Z) :
  forall slots res,
  day_loop settings now rs sp cutoff offsets slots = Some res ->
  Forall (slot_ok now rs sp cutoff) slots -> Forall (slot_ok now rs sp cutoff) res.
Proof.
  induction offsets as [|d rest IH]; intros slots res Hrun Hok; cbn in Hrun.
  - injection Hrun as <-. exact Hok.
  - destruct (hour_loop _ _ _ _ _ _ _) as [slots'|] eqn:Hh; [|discriminate].
    apply (IH _ _ Hrun). exact (hour_loop_ok _ _ _ _ _ _ _ _ Hh Hok).
Qed.




(** The cutoff time [get_available_slots] computes from the default
    settings is 19:30, not 20:00 - 90 min = 18:30. *)
Lemma default_cutoff_time :
  mk_time (BUSINESS_HOURS_END default_settings - CUTOFF_BUFFER_MIN default_settings / 60)
          (CUTOFF_BUFFER_MIN default_settings mod 60) = Some (19 * 60 + 30).
Proof. reflexivity. Qed.

End SchedulerFacts.

(** ** Return-trip matcher *)
Module ReturnTripFacts.
Import Orders ReturnTrip.


Lemma not_lt_le (a b : Q) : Qlt_bool a b = false -> b <= a.
Proof.
  unfold Qlt_bool. intros H. apply negb_false_iff in H. apply Qle_bool_iff. exact H.
Qed.

Lemma lt_le (a b : Q) : Qlt_bool a b = true -> a <= b.
Proof.
  unfold Qlt_bool. intros H. apply negb_true_iff in H.
  apply Qlt_le_weak. apply Qnot_le_lt. intros H'. apply Qle_bool_iff in H'. congruence.
Qed.
















End ReturnTripFacts.

(** ** Pricing engine: vehicle table, surge and discounts *)
Module PricingMore.
Import Pricing PricingFacts.

Lemma py_max_compat (a a' b b' : Q) : a == a' -> b == b' -> py_max a b == py_max a' b'.
Proof.
  intros Ha Hb. unfold py_max. rewrite (Qlt_bool_compat a a' b b' Ha Hb).
  destruct (Qlt_bool a' b'); assumption.
Qed.

(** [Qlt_bool] of a ratio of integers against an integer threshold, as an
    integer comparison. *)
Lemma ratio_lt_threshold (a r t : Z) :
  (0 < r)%Z -> Qlt_bool (inject_Z a / inject_Z r) (inject_Z t) = (a <? t * r)%Z.
Proof.
  intros Hr. destruct r as [|p|p]; try lia.
  unfold Qlt_bool, Qle_bool, Qdiv, Qmult, Qinv, inject_Z; cbn.
  destruct (Z.leb_spec (t * Z.pos p) (a * 1)); destruct (Z.ltb_spec a (t * Z.pos p)); cbn; lia.
Qed.

Lemma vehicle_multiplier_ge_1 (weight_tier : string) :
  exists m, VEHICLE_MULTIPLIER (determine_vehicle weight_tier) = Some m /\ 1 <= m.
Proof.
  unfold determine_vehicle, WEIGHT_TO_VEHICLE.
  destruct (String.eqb weight_tier "LIGHT"); [eexists; split; [reflexivity | unfold Qle; simpl; lia]|].
  destruct (String.eqb weight_tier "MEDIUM"); [eexists; split; [reflexivity | unfold Qle; simpl; lia]|].
  destruct (String.eqb weight_tier "HEAVY"); eexists; split; (reflexivity || (unfold Qle; simpl; lia)).
Qed.

Lemma time_factor_nonneg (k : string) : 0 <= get_or (TIME_FACTOR k) 1.
Proof.
  unfold TIME_FACTOR.
  destruct (String.eqb k "NEXT_DAY"); [unfold Qle; simpl; lia|].
  destruct (String.eqb k "STANDARD"); [unfold Qle; simpl; lia|].
  destruct (String.eqb k "SAME_DAY"); [unfold Qle; simpl; lia|].
  destruct (String.eqb k "EXPRESS"); unfold Qle; simpl; lia.
Qed.

(** The vehicle lookup of [calculate_price] never misses: for every
    weight tier, [determine_vehicle] returns a key of VEHICLE_MULTIPLIER
    (so the fallback multiplier 1 is never used), and the price
    breakdown reports that table's multiplier, which is at least 1. *)
Theorem vehicle_multiplier_from_table
  (distance_km' : Q) (duration_min' : Z) (weight_tier time_factor_key' : string)
  (surge_multiplier' : Q) (surge_reason' : option SurgeReason) (addons : list string)
  (is_batch_eligible : bool) (subscription_plan : option string)
  (free_deliveries_remaining : Z) :
  exists m, VEHICLE_MULTIPLIER (determine_vehicle weight_tier) = Some m /\ 1 <= m /\
    vehicle_multiplier (calculate_price distance_km' duration_min' weight_tier
      time_factor_key' surge_multiplier' surge_reason' addons is_batch_eligible
      subscription_plan free_deliveries_remaining) = m.
Proof.
  destruct (vehicle_multiplier_ge_1 weight_tier) as [m [Hm Hle]].
  exists m. split; [exact Hm|]. split; [exact Hle|].
  unfold calculate_price; cbn [vehicle_multiplier]. rewrite Hm. reflexivity.
Qed.

(** With a positive number of available riders, the surge multiplier of
    [calculate_surge] never decreases when the number of active orders
    grows. *)
Theorem calculate_surge_monotone (a1 a2 available_riders : Z)
  (Hr : (0 < available_riders)%Z) (Ha : (a1 <= a2)%Z) :
  fst (calculate_surge a1 available_riders) <= fst (calculate_surge a2 available_riders).
Proof.
  unfold calculate_surge.
  replace (available_riders <=? 0)%Z with false by (symmetry; apply Z.leb_gt; exact Hr).
  unfold SURGE_BANDS; cbn [surge_loop].
  change 2 with (inject_Z 2). change 4 with (inject_Z 4).
  change 6 with (inject_Z 6). change 999 with (inject_Z 999).
  rewrite !ratio_lt_threshold by exact Hr.
  destruct (Z.ltb_spec a1 (2 * available_riders)); destruct (Z.ltb_spec a2 (2 * available_riders));
  destruct (Z.ltb_spec a1 (4 * available_riders)); destruct (Z.ltb_spec a2 (4 * available_riders));
  destruct (Z.ltb_spec a1 (6 * available_riders)); destruct (Z.ltb_spec a2 (6 * available_riders));
  destruct (Z.ltb_spec a1 (999 * available_riders)); destruct (Z.ltb_spec a2 (999 * available_riders));
  cbn; try lia; unfold Qle; simpl; lia.
Qed.

Lemma calculate_surge_monotone_witness :
  (0 < 2)%Z /\ (3 <= 9)%Z /\ fst (calculate_surge 3 2) <= fst (calculate_surge 9 2).
Proof.
  split; [lia|]. split; [lia|].
  apply (calculate_surge_monotone 3 9 2); lia.
Defined.

(** The rider surge bonus of [calculate_price] is zero whenever the surge
    multiplier is at most 1, and it is never negative for a non-negative
    distance. *)
Theorem rider_surge_bonus_spec
  (distance_km' : Q) (duration_min' : Z) (weight_tier time_factor_key' : string)
  (surge_multiplier' : Q) (surge_reason' : option SurgeReason) (addons : list string)
  (is_batch_eligible : bool) (subscription_plan : option string)
  (free_deliveries_remaining : Z) :
  let pb := calculate_price distance_km' duration_min' weight_tier time_factor_key'
              surge_multiplier' surge_reason' addons is_batch_eligible subscription_plan
              free_deliveries_remaining in
  (surge_multiplier' <= 1 -> rider_surge_bonus pb == 0) /\
  (0 <= distance_km' -> 0 <= rider_surge_bonus pb).
Proof.
  intros pb. subst pb. unfold calculate_price; cbn [rider_surge_bonus]. split.
  - intros Hm.
    replace (Qlt_bool 1 surge_multiplier') with false.
    + reflexivity.
    + unfold Qlt_bool. symmetry. apply negb_false_iff. apply Qle_bool_iff. exact Hm.
  - intros Hd. change 0 with (inject_Z 0) at 1. apply round2_lower.
    destruct (Qlt_bool 1 surge_multiplier') eqn:E; [|apply Qle_refl].
    apply ReturnTripFacts.lt_le in E.
    destruct (vehicle_multiplier_ge_1 weight_tier) as [m [Hm Hle]]. rewrite Hm. cbn [get_or].
    set (B := distance_km' * RATE_PER_KM * m * get_or (TIME_FACTOR time_factor_key') 1).
    assert (HB : 0 <= B).
    { unfold B. apply Qmult_le_0_compat; [|apply time_factor_nonneg].
      apply Qmult_le_0_compat; [|apply Qle_trans with 1; [unfold Qle; simpl; lia | exact Hle]].
      apply Qmult_le_0_compat; [exact Hd | unfold Qle; simpl; lia]. }
    setoid_replace (B * surge_multiplier' - B) with (B * (surge_multiplier' - 1)) by ring.
    apply Qmult_le_0_compat; [|unfold Qle; simpl; lia].
    apply Qmult_le_0_compat; [exact HB|].
    apply Qle_minus_iff in E. exact E.
Qed.

(** A delivery covered by a free delivery of a subscription plan (plan
    set, free deliveries left) and not batch-eligible costs exactly the
    addons, floored at the minimum charge: the distance, vehicle, time
    factor and surge have no effect on the total. *)
Theorem free_delivery_total
  (distance_km' : Q) (duration_min' : Z) (weight_tier time_factor_key' : string)
  (surge_multiplier' : Q) (surge_reason' : option SurgeReason) (addons : list string)
  (plan : string) (free_deliveries_remaining : Z)
  (Hplan : String.eqb plan "" = false) (Hfree : (0 < free_deliveries_remaining)%Z) :
  total_cost (calculate_price distance_km' duration_min' weight_tier time_factor_key'
                surge_multiplier' surge_reason' addons false (Some plan)
                free_deliveries_remaining)
  = round2 (py_max (addons_total addons) MINIMUM_CHARGE).
Proof.
  unfold calculate_price, str_truthy; cbn [total_cost].
  rewrite Hplan. replace (0 <? free_deliveries_remaining)%Z with true
    by (symmetry; apply Z.ltb_lt; exact Hfree).
  cbn [negb andb]. apply round2_compat. apply py_max_compat; [ring | reflexivity].
Qed.

Lemma free_delivery_total_witness :
  String.eqb "BUSINESS" "" = false /\ (0 < 2)%Z /\
  total_cost (calculate_price 40 60 "HEAVY" "EXPRESS" (16 # 10) None ["INSURANCE_25K"%string]
                false (Some "BUSINESS"%string) 2)
  = round2 (py_max (addons_total ["INSURANCE_25K"%string]) MINIMUM_CHARGE).
Proof.
  split; [reflexivity|]. split; [lia|].
  apply (free_delivery_total 40 60 "HEAVY" "EXPRESS" (16 # 10) None ["INSURANCE_25K"%string]
           "BUSINESS" 2); [reflexivity | lia].
Defined.

End PricingMore.

(** ** Pickup scheduler: slot shape, order, messages and time factor *)
Module SchedulerMore.
Import Scheduler SchedulerFacts.
Open Scope Z_scope.

Lemma in_py_range (a b x : Z) : In x (py_range a b) -> a <= x < b.
Proof.
  unfold py_range. intros H. apply in_map_iff in H. destruct H as [k [<- Hk]].
  apply in_seq in Hk. lia.
Qed.

Lemma py_range_sorted_aux (a : Z) (n s : nat) :
  StronglySorted Z.lt (map (fun k => a + Z.of_nat k) (seq s n)).
Proof.
  revert s. induction n as [|n IH]; intros s; cbn; constructor; [apply IH|].
  apply Forall_forall. intros x Hx. apply in_map_iff in Hx. destruct Hx as [k [<- Hk]].
  apply in_seq in Hk. lia.
Qed.

Lemma py_range_sorted (a b : Z) : StronglySorted Z.lt (py_range a b).
Proof. apply py_range_sorted_aux. Qed.

Lemma strongly_sorted_snoc {A} (R : A -> A -> Prop) (l : list A) (x : A) :
  StronglySorted R l -> (forall y, In y l -> R y x) -> StronglySorted R (l ++ [x]).
Proof.
  induction l as [|y l IH]; intros Hs Hx; cbn.
  - repeat constructor.
  - inversion Hs as [|? ? Hl Hf]; subst. constructor.
    + apply IH; [exact Hl | intros z Hz; apply Hx; right; exact Hz].
    + apply Forall_app. split; [exact Hf|]. constructor; [apply Hx; left; reflexivity | constructor].
Qed.

(** The start and end of a slot the hour loop creates. *)
Lemma hour_loop_shape (now : Z) (rs : list RiderSchedule) (sp : list (Z * Z)) (cutoff : Z)
  (hours : list Z) (current_date : Z) :
  forall slots res t,
  hour_loop now rs sp cutoff hours current_date slots = Some res -> In t res ->
  In t slots \/
  exists hour, In hour hours /\ 0 <= hour < 24 /\
    start t = current_date * 1440 + hour * 60 /\ end_ t = start t + 60.
Proof.
  induction hours as [|hour rest IH]; intros slots res t Hrun Hin; cbn in Hrun.
  - injection Hrun as <-. left. exact Hin.
  - destruct (mk_time hour 0) as [t0|] eqn:Ht0; [|discriminate].
    pose proof (mk_time_spec _ _ _ Ht0) as [Heq0 Hr0].
    destruct (hour + 1 <? 24) eqn:H24.
    + destruct (mk_time (hour + 1) 0) as [t1|] eqn:Ht1; [|discriminate].
      pose proof (mk_time_spec _ _ _ Ht1) as [Heq1 _].
      repeat match type of Hrun with
      | context [if ?c then _ else _] => destruct c
      | context [match _calculate_slot_capacity ?h ?r with _ => _ end] =>
          destruct (_calculate_slot_capacity h r)
      end; try discriminate;
      (destruct (IH _ _ _ Hrun Hin) as [Hs|[h [Hh Hrest]]];
       [| right; exists h; split; [right; exact Hh | exact Hrest]]);
      try (left; exact Hs);
      apply in_app_or in Hs; destruct Hs as [Hs|Hs]; try (left; exact Hs);
      destruct Hs as [<-|[]]; right; exists hour; cbn; unfold _combine_dt;
      split; [left; reflexivity | lia].
    + repeat match type of Hrun with
      | context [if ?c then _ else _] => destruct c
      | context [match _calculate_slot_capacity ?h ?r with _ => _ end] =>
          destruct (_calculate_slot_capacity h r)
      end; try discriminate;
      (destruct (IH _ _ _ Hrun Hin) as [Hs|[h [Hh Hrest]]];
       [| right; exists h; split; [right; exact Hh | exact Hrest]]);
      try (left; exact Hs);
      apply in_app_or in Hs; destruct Hs as [Hs|Hs]; try (left; exact Hs);
      destruct Hs as [<-|[]]; right; exists hour; cbn; unfold _combine_dt;
      apply Z.ltb_ge in H24; split; [left; reflexivity | lia].
Qed.

Lemma day_loop_shape (settings : Settings) (now : Z) (rs : list RiderSchedule)
  (sp : list (Z * Z)) (cutoff : Z) (offsets : list Z) :
  forall slots res t,
  day_loop settings now rs sp cutoff offsets slots = Some res -> In t res ->
  In t slots \/
  exists d hour, BUSINESS_HOURS_START settings <= hour < BUSINESS_HOURS_END settings /\
    0 <= hour < 24 /\ start t = d * 1440 + hour * 60 /\ end_ t = start t + 60.
Proof.
  induction offsets as [|off rest IH]; intros slots res t Hrun Hin; cbn in Hrun.
  - injection Hrun as <-. left. exact Hin.
  - destruct (hour_loop _ _ _ _ _ _ _) as [slots'|] eqn:Hh; [|discriminate].
    destruct (IH _ _ _ Hrun Hin) as [Hs|Hex]; [|right; exact Hex].
    destruct (hour_loop_shape _ _ _ _ _ _ _ _ _ Hh Hs) as [Hs'|[hour [Hh' Hrest]]];
      [left; exact Hs'|].
    right. exists (date_of now + off), hour. split; [apply in_py_range; exact Hh'|exact Hrest].
Qed.

(** Every slot [get_available_slots] returns lies within business hours,
    as [_is_within_business_hours] checks it, and lasts exactly
    SLOT_DURATION_MIN = 60 minutes (the 23:00 slot ends at the next
    midnight), for opening and closing hours that are valid times. *)
Theorem available_slots_within_business_hours (settings : Settings) (now : Z)
  (rider_schedules : list RiderSchedule) (scheduled_pickups : list (Z * Z))
  (days_ahead : Z) (slots : list TimeSlot)
  (Hstart : 0 <= BUSINESS_HOURS_START settings) (Hend : BUSINESS_HOURS_END settings < 24)
  (Hslots : get_available_slots settings now rider_schedules scheduled_pickups days_ahead
            = Some slots) :
  Forall (fun t => _is_within_business_hours settings (start t) = Some true /\
                   end_ t = start t + 60) slots.
Proof.
  apply Forall_forall. intros t Hin.
  unfold get_available_slots in Hslots.
  destruct (mk_time _ _) as [cutoff|]; [|discriminate].
  destruct (day_loop_shape _ _ _ _ _ _ _ _ _ Hslots Hin) as [[]|[d [hour [Hb [H24 [Hs He]]]]]].
  split; [|exact He].
  unfold _is_within_business_hours, mk_time.
  replace ((0 <=? BUSINESS_HOURS_START settings) && (BUSINESS_HOURS_START settings <? 24)
           && (0 <=? 0) && (0 <? 60)) with true
    by (symmetry; repeat rewrite andb_true_iff; repeat split;
        try apply Z.leb_le; try apply Z.ltb_lt; lia).
  replace ((0 <=? BUSINESS_HOURS_END settings) && (BUSINESS_HOURS_END settings <? 24)
           && (0 <=? 0) && (0 <? 60)) with true
    by (symmetry; repeat rewrite andb_true_iff; repeat split;
        try apply Z.leb_le; try apply Z.ltb_lt; lia).
  assert (Ht : time_of (start t) = hour * 60).
  { unfold time_of. rewrite Hs. rewrite Z.add_comm, Z.mul_comm, Z_mod_plus_full.
    apply Z.mod_small. lia. }
  rewrite Ht. f_equal. apply andb_true_iff. split; [apply Z.leb_le | apply Z.ltb_lt]; lia.
Qed.

Lemma available_slots_within_business_hours_witness :
  match get_available_slots default_settings 600 [Fixtures.day_shift] [] 1 with
  | Some slots =>
      Forall (fun t => _is_within_business_hours default_settings (start t) = Some true /\
                       end_ t = start t + 60) slots
  | None => False
  end.
Proof.
  exact (available_slots_within_business_hours default_settings 600 [Fixtures.day_shift] [] 1
           _ ltac:(cbn; lia) ltac:(cbn; lia) eq_refl).
Defined.

Lemma hour_loop_sorted (now : Z) (rs : list RiderSchedule) (sp : list (Z * Z)) (cutoff : Z)
  (hours : list Z) (current_date : Z) :
  forall slots res,
  StronglySorted Z.lt hours ->
  hour_loop now rs sp cutoff hours current_date slots = Some res ->
  StronglySorted (fun a b => start a < start b) slots ->
  (forall s h, In s slots -> In h hours -> 0 <= h -> start s < current_date * 1440 + h * 60) ->
  (forall s, In s slots -> start s < (current_date + 1) * 1440) ->
  StronglySorted (fun a b => start a < start b) res /\
  (forall s, In s res -> start s < (current_date + 1) * 1440).
Proof.
  induction hours as [|hour rest IH]; intros slots res Hhours Hrun Hs Hlow Hup; cbn in Hrun.
  - injection Hrun as <-. split; assumption.
  - inversion Hhours as [|? ? Hrest Hhd]; subst.
    rewrite Forall_forall in Hhd.
    destruct (mk_time hour 0) as [t0|] eqn:Ht0; [|discriminate].
    pose proof (mk_time_spec _ _ _ Ht0) as [Heq0 Hr0].
    repeat match type of Hrun with
    | context [if ?c then _ else _] => destruct c
    | context [match _calculate_slot_capacity ?h ?r with _ => _ end] =>
        destruct (_calculate_slot_capacity h r)
    | context [match mk_time ?h ?m with _ => _ end] => destruct (mk_time h m)
    end; try discriminate;
    apply (IH _ _ Hrest Hrun);
    first
      [ exact Hs
      | intros s h Hsin Hh Hh0; apply Hlow; [exact Hsin | right; exact Hh | exact Hh0]
      | exact Hup
      | apply strongly_sorted_snoc; [exact Hs|];
        intros y Hy; cbn; unfold _combine_dt;
        assert (Hh0 : 0 <= hour) by lia;
        specialize (Hlow y hour Hy (or_introl eq_refl) Hh0); lia
      | intros s h Hsin Hh Hh0; apply in_app_or in Hsin; destruct Hsin as [Hsin|[<-|[]]];
        [ apply Hlow; [exact Hsin | right; exact Hh | exact Hh0]
        | cbn; unfold _combine_dt; specialize (Hhd h Hh); lia ]
      | intros s Hsin; apply in_app_or in Hsin; destruct Hsin as [Hsin|[<-|[]]];
        [ apply Hup; exact Hsin | cbn; unfold _combine_dt; lia ] ].
Qed.

Lemma day_loop_sorted (settings : Settings) (now : Z) (rs : list RiderSchedule)
  (sp : list (Z * Z)) (cutoff : Z) (offsets : list Z) :
  forall slots res,
  StronglySorted Z.lt offsets ->
  day_loop settings now rs sp cutoff offsets slots = Some res ->
  StronglySorted (fun a b => start a < start b) slots ->
  (forall s d, In s slots -> In d offsets -> start s < (date_of now + d) * 1440) ->
  StronglySorted (fun a b => start a < start b) res.
Proof.
  induction offsets as [|off rest IH]; intros slots res Hoff Hrun Hs Hlow; cbn in Hrun.
  - injection Hrun as <-. exact Hs.
  - inversion Hoff as [|? ? Hrest Hhd]; subst. rewrite Forall_forall in Hhd.
    destruct (hour_loop _ _ _ _ _ _ _) as [slots'|] eqn:Hh; [|discriminate].
    destruct (hour_loop_sorted _ _ _ _ _ _ _ _ (py_range_sorted _ _) Hh Hs) as [Hs' Hup'].
    + intros s h Hsin _ Hh0. specialize (Hlow s off Hsin (or_introl eq_refl)). lia.
    + intros s Hsin. specialize (Hlow s off Hsin (or_introl eq_refl)). lia.
    + apply (IH _ _ Hrest Hrun Hs').
      intros s d Hsin Hd. specialize (Hup' s Hsin). specialize (Hhd d Hd). lia.
Qed.

(** [get_available_slots] lists its slots in strictly increasing order of
    start time: chronologically, and never the same slot twice. *)
Theorem available_slots_chronological (settings : Settings) (now : Z)
  (rider_schedules : list RiderSchedule) (scheduled_pickups : list (Z * Z))
  (days_ahead : Z) (slots : list TimeSlot)
  (Hslots : get_available_slots settings now rider_schedules scheduled_pickups days_ahead
            = Some slots) :
  StronglySorted (fun a b => start a < start b) slots.
Proof.
  unfold get_available_slots in Hslots.
  destruct (mk_time _ _) as [cutoff|]; [|discriminate].
  apply (day_loop_sorted _ _ _ _ _ _ _ _ (py_range_sorted _ _) Hslots); [constructor|].
  intros s d [].
Qed.

Lemma available_slots_chronological_witness :
  match get_available_slots default_settings 600 [Fixtures.day_shift] [] 2 with
  | Some slots => StronglySorted (fun a b => start a < start b) slots
  | None => False
  end.
Proof.
  exact (available_slots_chronological default_settings 600 [Fixtures.day_shift] [] 2 _ eq_refl).
Defined.

(** Between the cutoff time and closing time, the scheduling message for
    the slots [get_available_slots] returns never offers a slot of the
    current day: it says that no slot is left today, or that today's
    slots are closed and names the first slot, which lies on a later
    day. *)
Theorem scheduling_message_after_cutoff (settings : Settings) (now : Z)
  (rider_schedules : list RiderSchedule) (scheduled_pickups : list (Z * Z))
  (days_ahead : Z) (slots : list TimeSlot) (cutoff_time closing : Z)
  (Hslots : get_available_slots settings now rider_schedules scheduled_pickups days_ahead
            = Some slots)
  (Hcutoff : mk_time (BUSINESS_HOURS_END settings - CUTOFF_BUFFER_MIN settings / 60)
                     (CUTOFF_BUFFER_MIN settings mod 60) = Some cutoff_time)
  (Hclosing : mk_time (BUSINESS_HOURS_END settings) 0 = Some closing)
  (Hnow : cutoff_time <= time_of now < closing) :
  get_scheduling_message settings now slots = Some MsgNoSlotsToday \/
  exists t, get_scheduling_message settings now slots = Some (MsgCutoffNext t) /\
            In t slots /\ date_of now < date_of (start t).
Proof.
  assert (Hok : Forall (slot_ok now rider_schedules scheduled_pickups cutoff_time) slots).
  { unfold get_available_slots in Hslots. rewrite Hcutoff in Hslots.
    exact (day_loop_ok _ _ _ _ _ _ _ _ Hslots (Forall_nil _)). }
  unfold get_scheduling_message. rewrite Hcutoff, Hclosing.
  replace (closing <=? time_of now) with false by (symmetry; apply Z.leb_gt; lia).
  replace (cutoff_time <=? time_of now) with true by (symmetry; apply Z.leb_le; lia).
  destruct slots as [|t rest]; [left; reflexivity|].
  right. exists t. split; [reflexivity|]. split; [left; reflexivity|].
  inversion Hok as [|? ? [Hstart [_ Hcut]] _]; subst.
  assert (Hle : date_of now <= date_of (start t)) by (unfold date_of; apply Z.div_le_mono; lia).
  destruct (Z.eq_dec (date_of (start t)) (date_of now)) as [E|E]; [|lia].
  specialize (Hcut E). lia.
Qed.

Lemma scheduling_message_after_cutoff_witness :
  match get_available_slots default_settings (19 * 60 + 40) [Fixtures.day_shift] [] 1 with
  | Some slots =>
      get_scheduling_message default_settings (19 * 60 + 40) slots = Some MsgNoSlotsToday \/
      exists t, get_scheduling_message default_settings (19 * 60 + 40) slots
                = Some (MsgCutoffNext t) /\
                In t slots /\ date_of (19 * 60 + 40) < date_of (start t)
  | None => False
  end.
Proof.
  exact (scheduling_message_after_cutoff default_settings (19 * 60 + 40) [Fixtures.day_shift] [] 1
           _ (19 * 60 + 30) (20 * 60) eq_refl eq_refl eq_refl ltac:(cbn; lia)).
Defined.

(** [determine_time_factor] only returns keys of the TIME_FACTOR table, so
    the price it feeds uses that table's factor, never the fallback 1. *)
Theorem time_factor_key_in_table (is_express : bool) (pickup_slot now : Z) :
  exists v, Pricing.TIME_FACTOR (determine_time_factor is_express pickup_slot now) = Some v.
Proof.
  unfold determine_time_factor.
  destruct is_express; [eexists; reflexivity|].
  destruct (date_of now <? date_of pickup_slot); [eexists; reflexivity|].
  destruct (Qle_bool _ _); eexists; reflexivity.
Qed.

(** A pickup slot at or before the current time (even on an earlier day)
    is priced SAME_DAY unless express: the hours until the slot are not
    positive, hence at most 4. *)
Theorem past_slot_priced_same_day (pickup_slot now : Z) (Hpast : pickup_slot <= now) :
  determine_time_factor false pickup_slot now = "SAME_DAY"%string.
Proof.
  unfold determine_time_factor.
  replace (date_of now <? date_of pickup_slot) with false
    by (symmetry; apply Z.ltb_ge; unfold date_of; apply Z.div_le_mono; lia).
  replace (Qle_bool (inject_Z ((pickup_slot - now) * 60) / 3600) 4) with true; [reflexivity|].
  symmetry. unfold Qle_bool; cbn. apply Z.leb_le. lia.
Qed.

Lemma past_slot_priced_same_day_witness :
  1000 <= 3000 /\ determine_time_factor false 1000 3000 = "SAME_DAY"%string.
Proof. split; [lia|]. apply (past_slot_priced_same_day 1000 3000). lia. Defined.

End SchedulerMore.

(** ** OTP service: round trip and independence of keys *)
Module OtpMore.
Import Otp OtpFacts.

Lemma key_eqb_true (a b : Key) : key_eqb a b = true <-> a = b.
Proof.
  destruct a as [n1 s1], b as [n2 s2]. unfold key_eqb; cbn.
  rewrite andb_true_iff, Nat.eqb_eq, String.eqb_eq. split.
  - intros [-> ->]. reflexivity.
  - intros H. injection H as -> ->. split; reflexivity.
Qed.

Lemma hgetall_delete_other (s : Store) (k k' : Key) :
  k <> k' -> hgetall (delete s k') k = hgetall s k.
Proof.
  intros Hne. unfold delete. induction s as [|[k2 e] s IH]; cbn; [reflexivity|].
  destruct (key_eqb k' k2) eqn:E; cbn.
  - apply key_eqb_true in E. subst k2.
    replace (key_eqb k k') with false; [exact IH|].
    symmetry. destruct (key_eqb k k') eqn:E2; [|reflexivity].
    apply key_eqb_true in E2. contradiction.
  - rewrite IH. reflexivity.
Qed.

Lemma hgetall_hset_other (s : Store) (k k' : Key) (e : OtpEntry) :
  k <> k' -> hgetall (hset s k' e) k = hgetall s k.
Proof.
  intros Hne. unfold hset; cbn.
  destruct (key_eqb k k') eqn:E; [apply key_eqb_true in E; contradiction|].
  apply hgetall_delete_other. exact Hne.
Qed.

Lemma hgetall_hincrby_other (s : Store) (k k' : Key) (n : Z) :
  k <> k' -> hgetall (hincrby_attempts s k' n) k = hgetall s k.
Proof.
  intros Hne. unfold hincrby_attempts.
  destruct (hgetall s k'); apply hgetall_hset_other; exact Hne.
Qed.

(** A generated OTP round-trips: [get_otp_hash] returns the stored hash
    of the code, verifying the code succeeds, and a second verification
    with the same code reports the OTP as expired (it was deleted). *)
Theorem generate_then_verify (s : Store) (order_id : nat) (otp_type code : string) :
  let st1 := snd (generate_otp s order_id otp_type code) in
  let '(r1, st2) := verify_otp st1 order_id otp_type code in
  get_otp_hash st1 order_id otp_type = Some code /\
  fst (generate_otp s order_id otp_type code) = code /\
  r1 = {| valid := true; error := None; remaining := 0 |} /\
  fst (verify_otp st2 order_id otp_type code) =
    {| valid := false; error := Some Expired; remaining := 0 |}.
Proof.
  cbn zeta. unfold generate_otp; cbn [fst snd].
  unfold verify_otp at 1. rewrite hgetall_hset_same. cbn [attempts hash].
  unfold checkpw. rewrite String.eqb_refl. cbn.
  split; [unfold get_otp_hash; rewrite hgetall_hset_same; reflexivity|].
  split; [reflexivity|]. split; [reflexivity|].
  unfold verify_otp. rewrite hgetall_delete_same. reflexivity.
Qed.

(** Generating or verifying the OTP of one (order, type) key never
    changes the stored OTP of any other key: in particular the pickup
    and drop OTPs of an order are independent. *)
Theorem otp_operations_local (s : Store) (order_id : nat) (otp_type code provided : string)
  (k : Key) (Hk : k <> (order_id, otp_type)) :
  hgetall (snd (generate_otp s order_id otp_type code)) k = hgetall s k /\
  hgetall (snd (verify_otp s order_id otp_type provided)) k = hgetall s k.
Proof.
  split.
  - unfold generate_otp; cbn [snd]. apply hgetall_hset_other. exact Hk.
  - unfold verify_otp.
    destruct (hgetall s (order_id, otp_type)) as [data|]; [|reflexivity].
    destruct (3 <=? attempts data)%Z; [reflexivity|].
    destruct (checkpw provided (hash data)); cbn [snd].
    + rewrite hgetall_delete_other by exact Hk. apply hgetall_hincrby_other. exact Hk.
    + apply hgetall_hincrby_other. exact Hk.
Qed.

Lemma otp_operations_local_witness :
  (1%nat, "drop"%string) <> (1%nat, "pickup"%string) /\
  hgetall (snd (generate_otp Fixtures.otp_store0 1 "pickup" "654321")) (1%nat, "drop"%string)
    = hgetall Fixtures.otp_store0 (1%nat, "drop"%string) /\
  hgetall (snd (verify_otp Fixtures.otp_store0 1 "pickup" "000000")) (1%nat, "drop"%string)
    = hgetall Fixtures.otp_store0 (1%nat, "drop"%string).
Proof.
  split; [discriminate|].
  apply (otp_operations_local Fixtures.otp_store0 1 "pickup" "654321" "000000"
           (1%nat, "drop"%string)).
  discriminate.
Defined.

End OtpMore.

(** ** Rider assignment: the choice of the rider and its effects *)
Module AssignMore.
Import Orders Endpoints.

Section Services.
Variable geocode : string -> option (Q * Q).
Variable get_distance : Q -> Q -> Q -> Q -> option (option Q * option Z).
Variable haversine_distance : Q -> Q -> Q -> Q -> Q.

Lemma best_loop_inv (plat plng : Q) (pool : list Rider) :
  forall best r d dur,
  best_loop get_distance pool plat plng best = Some (r, d, dur) ->
  (forall br bd bdur, best = Some (br, bd, bdur) -> d <= bd) /\
  (best = Some (r, d, dur) \/
   (In r pool /\ exists la ln, _rider_location r = Some (la, ln) /\
                               get_distance la ln plat plng = Some (Some d, dur))) /\
  (forall r' la ln d' dur', In r' pool -> _rider_location r' = Some (la, ln) ->
     get_distance la ln plat plng = Some (Some d', dur') -> d <= d').
Proof.
  induction pool as [|r0 rest IH]; intros best r d dur H; cbn [best_loop] in H.
  - subst best. split; [intros br bd bdur E; injection E as _ <- _; apply Qle_refl|].
    split; [left; reflexivity | intros ? ? ? ? ? []].
  - destruct (_rider_location r0) as [[la0 ln0]|] eqn:Hloc0.
    + destruct (get_distance la0 ln0 plat plng) as [[[dk|] dur0]|] eqn:Hd0.
      * destruct best as [[[br bd] bdur]|].
        -- destruct (Qlt_bool dk bd) eqn:Elt.
           ++ destruct (IH _ _ _ _ H) as [A [B C]].
              split.
              { intros br' bd' bdur' E. injection E as <- <- <-.
                apply Qle_trans with dk; [apply (A r0 dk dur0); reflexivity|].
                apply ReturnTripFacts.lt_le. exact Elt. }
              split.
              { destruct B as [B|[Bin Bloc]]; right.
                - injection B as <- <- <-. split; [left; reflexivity|].
                  exists la0, ln0. split; assumption.
                - split; [right; exact Bin | exact Bloc]. }
              intros r' la ln d' dur' [<-|Hin] Hl Hd.
              { rewrite Hloc0 in Hl. injection Hl as <- <-. rewrite Hd0 in Hd.
                injection Hd as <- _. apply (A r0 dk dur0). reflexivity. }
              exact (C _ _ _ _ _ Hin Hl Hd).
           ++ destruct (IH _ _ _ _ H) as [A [B C]].
              split; [exact A|].
              split.
              { destruct B as [B|[Bin Bloc]];
                  [left; exact B | right; split; [right; exact Bin | exact Bloc]]. }
              intros r' la ln d' dur' [<-|Hin] Hl Hd.
              { rewrite Hloc0 in Hl. injection Hl as <- <-. rewrite Hd0 in Hd.
                injection Hd as <- _.
                apply Qle_trans with bd; [apply (A br bd bdur); reflexivity|].
                apply ReturnTripFacts.not_lt_le. exact Elt. }
              exact (C _ _ _ _ _ Hin Hl Hd).
        -- destruct (IH _ _ _ _ H) as [A [B C]].
           split; [intros ? ? ? E; discriminate E|].
           split.
           { destruct B as [B|[Bin Bloc]]; right.
             - injection B as <- <- <-. split; [left; reflexivity|].
               exists la0, ln0. split; assumption.
             - split; [right; exact Bin | exact Bloc]. }
           intros r' la ln d' dur' [<-|Hin] Hl Hd.
           { rewrite Hloc0 in Hl. injection Hl as <- <-. rewrite Hd0 in Hd.
             injection Hd as <- _. apply (A r0 dk dur0). reflexivity. }
           exact (C _ _ _ _ _ Hin Hl Hd).
      * destruct (IH _ _ _ _ H) as [A [B C]].
        split; [exact A|]. split.
        { destruct B as [B|[Bin Bloc]];
            [left; exact B | right; split; [right; exact Bin | exact Bloc]]. }
        intros r' la ln d' dur' [<-|Hin] Hl Hd.
        { rewrite Hloc0 in Hl. injection Hl as <- <-. rewrite Hd0 in Hd. discriminate Hd. }
        exact (C _ _ _ _ _ Hin Hl Hd).
      * destruct (IH _ _ _ _ H) as [A [B C]].
        split; [exact A|]. split.
        { destruct B as [B|[Bin Bloc]];
            [left; exact B | right; split; [right; exact Bin | exact Bloc]]. }
        intros r' la ln d' dur' [<-|Hin] Hl Hd.
        { rewrite Hloc0 in Hl. injection Hl as <- <-. rewrite Hd0 in Hd. discriminate Hd. }
        exact (C _ _ _ _ _ Hin Hl Hd).
    + destruct (IH _ _ _ _ H) as [A [B C]].
      split; [exact A|]. split.
      { destruct B as [B|[Bin Bloc]];
          [left; exact B | right; split; [right; exact Bin | exact Bloc]]. }
      intros r' la ln d' dur' [<-|Hin] Hl Hd.
      { rewrite Hloc0 in Hl. discriminate Hl. }
      exact (C _ _ _ _ _ Hin Hl Hd).
Qed.

(** The rider the assignment loop picks is one of the pool, located, with
    the distance the road-distance service returned for it, and no rider
    of the pool has a smaller returned distance. *)
Theorem best_loop_nearest (pool : list Rider) (plat plng : Q) (r : Rider) (d : Q)
  (dur : option Z)
  (H : best_loop get_distance pool plat plng None = Some (r, d, dur)) :
  In r pool /\
  (exists la ln, _rider_location r = Some (la, ln) /\
                 get_distance la ln plat plng = Some (Some d, dur)) /\
  (forall r' la ln d' dur', In r' pool -> _rider_location r' = Some (la, ln) ->
     get_distance la ln plat plng = Some (Some d', dur') -> d <= d').
Proof.
  destruct (best_loop_inv _ _ _ _ _ _ _ H) as [_ [[B|B] C]]; [discriminate B|].
  destruct B as [Bin Bloc]. split; [exact Bin|]. split; [exact Bloc | exact C].
Qed.

Lemma in_nonempty_or (A : Type) (l a : list A) (x : A) :
  In x (match l with [] => a | _ => l end) -> In x a \/ In x l.
Proof. destruct l; intros H; [left | right]; exact H. Qed.

Lemma assign_with_coords_some (order : Order) (db db' : Db) (plat plng : Q) (now : Z)
  (a : Assignment) :
  assign_with_coords get_distance haversine_distance order db plat plng now = (Some a, db') ->
  exists r ev,
    In r (riders db) /\ rider_status r = "ON_DUTY"%string /\ rider_id r = a_rider_id a /\
    riders db' = map (fun r' => if Nat.eqb (rider_id r') (rider_id r) then take_pickup r else r')
                     (riders db) /\
    events db' = events db ++ [ev] /\
    from_status ev = Some (status order) /\ to_status ev = PICKUP_RIDER_ASSIGNED.
Proof.
  intros H. unfold assign_with_coords in H.
  remember (filter (fun r => String.eqb (rider_status r) "ON_DUTY") (riders db)) as R eqn:HR.
  destruct R as [|x xs]; [discriminate H|].
  cbv zeta in H.
  destruct (match filter has_gps (x :: xs) with [] => _ | _ => _ end) as [|e es] eqn:He;
    [discriminate H|].
  destruct (best_loop _ _ _ _ _) as [[[br bd] bdur]|] eqn:Hb; [|discriminate H].
  injection H as <- <-.
  destruct (best_loop_inv _ _ _ _ _ _ _ Hb) as [_ [[B|[Hin _]] _]]; [discriminate B|].
  assert (Hon : In br (x :: xs)).
  { apply in_nonempty_or in Hin.
    destruct Hin as [Hin|Hin]; [|apply filter_In in Hin; destruct Hin as [Hin _]];
      rewrite <- He in Hin; apply in_nonempty_or in Hin;
      destruct Hin as [Hin|Hin]; apply filter_In in Hin; apply Hin. }
  rewrite HR in Hon. apply filter_In in Hon. destruct Hon as [Hon Hst].
  eexists br, _.
  split; [exact Hon|]. split; [apply String.eqb_eq; exact Hst|].
  repeat split; reflexivity.
Qed.

Lemma assign_with_coords_none (order : Order) (db db' : Db) (plat plng : Q) (now : Z) :
  assign_with_coords get_distance haversine_distance order db plat plng now = (None, db') ->
  db' = db.
Proof.
  intros H. unfold assign_with_coords in H.
  destruct (filter _ (riders db)) as [|x xs]; [injection H as <-; reflexivity|].
  cbv zeta in H.
  destruct (match filter has_gps (x :: xs) with [] => _ | _ => _ end) as [|e es];
    [injection H as <-; reflexivity|].
  destruct (best_loop _ _ _ _ _) as [[[br bd] bdur]|]; [discriminate H|].
  injection H as <-. reflexivity.
Qed.

(** When [_assign_nearest_pickup_rider] assigns a rider, that rider was
    ON_DUTY in the store; it is the only rider whose row changes (it
    goes ON_PICKUP with its load raised by one), and exactly one event
    is logged, from the order's status before the call to
    PICKUP_RIDER_ASSIGNED. *)
Theorem assign_nearest_success (order : Order) (db db' : Db) (now : Z) (a : Assignment)
  (H : _assign_nearest_pickup_rider geocode get_distance haversine_distance order db now
       = (Some a, db')) :
  exists r ev,
    In r (riders db) /\ rider_status r = "ON_DUTY"%string /\ rider_id r = a_rider_id a /\
    riders db' = map (fun r' => if Nat.eqb (rider_id r') (rider_id r) then take_pickup r else r')
                     (riders db) /\
    rider_status (take_pickup r) = "ON_PICKUP"%string /\
    current_load (take_pickup r) = Some (S (match current_load r with Some n => n | None => 0%nat end)) /\
    events db' = events db ++ [ev] /\
    from_status ev = Some (status order) /\ to_status ev = PICKUP_RIDER_ASSIGNED.
Proof.
  unfold _assign_nearest_pickup_rider in H.
  destruct (q_truthy (pickup_lat order) && q_truthy (pickup_lng order)).
  - destruct (pickup_lat order) as [la|], (pickup_lng order) as [ln|]; try discriminate H.
    destruct (assign_with_coords_some _ _ _ _ _ _ _ H) as [r [ev [A [B [C [D [E [F G]]]]]]]].
    exists r, ev. repeat split; assumption.
  - destruct (if negb _ then _ else _) as [[la ln]|]; [|discriminate H].
    destruct (q_truthy (Some la) && q_truthy (Some ln)); [|discriminate H].
    destruct (assign_with_coords_some _ _ _ _ _ _ _ H) as [r [ev [A [B [C [D [E [F G]]]]]]]].
    exists r, ev. repeat split; assumption.
Qed.

(** When [_assign_nearest_pickup_rider] assigns no rider, it logs no
    event and changes no rider; the only write it may leave is the
    geocoded pickup coordinates of the order. *)
Theorem assign_nearest_failure_no_side_effect (order : Order) (db db' : Db) (now : Z)
  (H : _assign_nearest_pickup_rider geocode get_distance haversine_distance order db now
       = (None, db')) :
  events db' = events db /\ riders db' = riders db /\
  (db' = db \/ exists la ln, db' = put_order db (set_pickup_coords order la ln)).
Proof.
  unfold _assign_nearest_pickup_rider in H.
  destruct (q_truthy (pickup_lat order) && q_truthy (pickup_lng order)).
  - destruct (pickup_lat order) as [la|], (pickup_lng order) as [ln|];
      try (injection H as <-; split; [reflexivity|split; [reflexivity|left; reflexivity]]).
    apply assign_with_coords_none in H. subst db'.
    split; [reflexivity|split; [reflexivity|left; reflexivity]].
  - destruct (if negb _ then _ else _) as [[la ln]|];
      [|injection H as <-; split; [reflexivity|split; [reflexivity|left; reflexivity]]].
    destruct (q_truthy (Some la) && q_truthy (Some ln)).
    + apply assign_with_coords_none in H. subst db'.
      split; [reflexivity|split; [reflexivity|right; exists la, ln; reflexivity]].
    + injection H as <-. split; [reflexivity|split; [reflexivity|right; exists la, ln; reflexivity]].
Qed.

End Services.

Lemma best_loop_nearest_witness :
  best_loop Fixtures.road_grid [Fixtures.rider_seven; Fixtures.rider_nine] (1297 # 100) (7759 # 100) None
    = Some (Fixtures.rider_nine, Fixtures.grid_km (1297 # 100) (7759 # 100) (1297 # 100) (7759 # 100),
            Some 10%Z) /\
  Fixtures.grid_km (1297 # 100) (7759 # 100) (1297 # 100) (7759 # 100)
    <= Fixtures.grid_km (1290 # 100) (7760 # 100) (1297 # 100) (7759 # 100).
Proof.
  split; [reflexivity|].
  destruct (best_loop_nearest Fixtures.road_grid [Fixtures.rider_seven; Fixtures.rider_nine]
              (1297 # 100) (7759 # 100) Fixtures.rider_nine _ (Some 10%Z) eq_refl)
    as (_ & _ & Hmin).
  exact (Hmin Fixtures.rider_seven (1290 # 100) (7760 # 100) _ (Some 10%Z)
           (or_introl eq_refl) eq_refl eq_refl).
Defined.

Lemma assign_nearest_success_witness :
  exists r, In r (riders Fixtures.db0) /\ rider_status r = "ON_DUTY"%string.
Proof.
  destruct (assign_nearest_success Fixtures.no_geocode Fixtures.road_3km Fixtures.manhattan
              Fixtures.order_paid Fixtures.db0 _ 600 _ eq_refl) as [r [ev [A [B _]]]].
  exists r. split; assumption.
Defined.

Lemma assign_nearest_failure_no_side_effect_witness :
  let db := {| orders := [Fixtures.order_unlocated]; events := [];
               riders := [Fixtures.rider_off_duty] |} in
  let db' := snd (_assign_nearest_pickup_rider Fixtures.geocode_mg Fixtures.road_grid
                    Fixtures.manhattan Fixtures.order_unlocated db 600) in
  db' <> db /\ events db' = [] /\ riders db' = [Fixtures.rider_off_duty] /\
  (db' = db \/ exists la ln, db' = put_order db (set_pickup_coords Fixtures.order_unlocated la ln)).
Proof.
  intros db db'.
  destruct (assign_nearest_failure_no_side_effect Fixtures.geocode_mg Fixtures.road_grid
              Fixtures.manhattan Fixtures.order_unlocated db _ 600 eq_refl) as (Hev & Hr & Hw).
  split; [discriminate|]. split; [exact Hev|]. split; [exact Hr|exact Hw].
Defined.

End AssignMore.

(** ** Payment endpoints *)
Module PaymentsMore.
Import Orders Otp Endpoints Payments OrderFacts OtpFacts OtpMore.

Lemma find_order_id (db : Db) (oid : nat) (o : Order) : find_order db oid = Some o -> id o = oid.
Proof.
  unfold find_order. intros H. apply find_some in H. destruct H as [_ H].
  apply Nat.eqb_eq. exact H.
Qed.

Lemma find_put_order_found (db : Db) (o o2 : Order) (oid : nat) :
  find_order db oid = Some o -> exists o', find_order (put_order db o2) oid = Some o'.
Proof.
  unfold find_order, put_order; cbn [orders].
  induction (orders db) as [|o' rest IH]; [discriminate|].
  cbn [map find]. intros Hf.
  destruct (Nat.eqb (id o') oid) eqn:E2.
  - destruct (Nat.eqb (id o') (id o2)) eqn:E1.
    + apply Nat.eqb_eq in E1.
      assert (E3 : (id o2 =? oid) = (id o' =? oid)) by (rewrite E1; reflexivity).
      rewrite E3, E2. eexists; reflexivity.
    + rewrite E2. eexists; reflexivity.
  - destruct (Nat.eqb (id o') (id o2)) eqn:E1.
    + apply Nat.eqb_eq in E1.
      assert (E3 : (id o2 =? oid) = (id o' =? oid)) by (rewrite E1; reflexivity).
      rewrite E3, E2. apply (IH Hf).
    + rewrite E2. apply (IH Hf).
Qed.

Section Services.
Variable geocode : string -> option (Q * Q).
Variable get_distance : Q -> Q -> Q -> Q -> option (option Q * option Z).
Variable haversine_distance : Q -> Q -> Q -> Q -> Q.

Lemma assign_with_coords_shape (order : Order) (db : Db) (plat plng : Q) (now : Z) :
  snd (assign_with_coords get_distance haversine_distance order db plat plng now) = db \/
  exists o1 r ev,
    snd (assign_with_coords get_distance haversine_distance order db plat plng now)
    = add_event (put_rider (put_order db o1) r) ev.
Proof.
  unfold assign_with_coords.
  destruct (filter _ (riders db)) as [|x xs]; [left; reflexivity|].
  cbv zeta.
  destruct (match filter has_gps (x :: xs) with [] => _ | _ => _ end) as [|e es];
    [left; reflexivity|].
  destruct (best_loop _ _ _ _ _) as [[[br bd] bdur]|]; [|left; reflexivity].
  right. do 3 eexists. reflexivity.
Qed.

(** What [_assign_nearest_pickup_rider] does to the event log and to the
    presence of an order. *)
Lemma assign_nearest_frame (order : Order) (db : Db) (now : Z) (oid : nat) (o : Order) :
  find_order db oid = Some o ->
  let db' := snd (_assign_nearest_pickup_rider geocode get_distance haversine_distance
                    order db now) in
  (exists rest, events db' = events db ++ rest /\ (List.length rest <= 1)%nat) /\
  (exists o', find_order db' oid = Some o').
Proof.
  intros Hf db'. subst db'.
  assert (Hgen : forall db0 o0, find_order db0 oid = Some o0 ->
            forall order0 la ln,
            (exists rest, events (snd (assign_with_coords get_distance haversine_distance
                                         order0 db0 la ln now)) = events db0 ++ rest /\
                          (List.length rest <= 1)%nat) /\
            (exists o', find_order (snd (assign_with_coords get_distance haversine_distance
                                           order0 db0 la ln now)) oid = Some o')).
  { clear Hf. intros db0 o0 Hf0 order0 la ln.
    destruct (assign_with_coords_shape order0 db0 la ln now) as [E|[o1 [r [ev E]]]];
      rewrite E.
    - split; [exists []; split; [symmetry; apply app_nil_r | cbn; lia] | exists o0; exact Hf0].
    - split; [exists [ev]; split; [reflexivity | cbn; lia]|].
      rewrite find_order_add_event.
      exact (find_put_order_found _ _ o1 _ Hf0). }
  unfold _assign_nearest_pickup_rider.
  destruct (q_truthy (pickup_lat order) && q_truthy (pickup_lng order)).
  - destruct (pickup_lat order) as [la|], (pickup_lng order) as [ln|];
      try (cbn [snd]; split; [exists []; split; [symmetry; apply app_nil_r | cbn; lia] | exists o; exact Hf]).
    apply (Hgen _ _ Hf).
  - destruct (if negb _ then _ else _) as [[la ln]|];
      [|cbn [snd]; split; [exists []; split; [symmetry; apply app_nil_r | cbn; lia] | exists o; exact Hf]].
    destruct (find_put_order_found db o (set_pickup_coords order la ln) oid Hf) as [o1 Hf1].
    destruct (q_truthy (Some la) && q_truthy (Some ln)).
    + apply (Hgen _ _ Hf1).
    + cbn [snd]. split; [exists []; split; [symmetry; apply app_nil_r | cbn; lia] | exists o1; exact Hf1].
Qed.

Lemma payment_of_set_same (pt : PaymentTable) (oid : nat) (p : PaymentInfo) :
  payment_of (set_payment pt oid p) oid = p.
Proof. unfold payment_of, set_payment; cbn. rewrite Nat.eqb_refl. reflexivity. Qed.

Lemma payment_not_paid (pt : PaymentTable) (oid : nat) :
  PaymentStatus_beq (payment (payment_of pt oid)) PAID = false -> payment (payment_of pt oid) <> PAID.
Proof. destruct (payment (payment_of pt oid)); cbn; congruence. Qed.

Lemma confirm_payment_confirmed_inv (db : Db) (pt : PaymentTable) (st : Store) (oid : nat)
  (m' pc dc : string) (now : Z) (mode : PaymentMode) (pay : PaymentStatus) (p d : string)
  (asg : option Assignment) (db' : Db) (pt' : PaymentTable) (st' : Store) :
  confirm_payment geocode get_distance haversine_distance db pt st oid m' pc dc now
    = (Confirmed mode pay p d asg, db', pt', st') ->
  exists order,
    find_order db oid = Some order /\
    payment (payment_of pt oid) <> PAID /\
    parse_mode m' = Some mode /\
    pay = match mode with COD => PENDING | _ => PAID end /\
    pt' = set_payment pt oid {| payment := pay; payment_mode := mode |} /\
    p = pc /\ d = dc /\
    st' = hset (hset st (oid, "pickup"%string) {| hash := pc; attempts := 0 |})
               (oid, "drop"%string) {| hash := dc; attempts := 0 |} /\
    exists ev, from_status ev = Some ORDER_PLACED /\ to_status ev = PAYMENT_CONFIRMED /\
      (asg, db') = _assign_nearest_pickup_rider geocode get_distance haversine_distance
                     (set_status order PAYMENT_CONFIRMED)
                     (add_event (put_order db (set_status order PAYMENT_CONFIRMED)) ev) now.
Proof.
  unfold confirm_payment.
  destruct (find_order db oid) as [order|] eqn:Ef; [|discriminate].
  destruct (PaymentStatus_beq (payment (payment_of pt oid)) PAID) eqn:Eb; [discriminate|].
  destruct (parse_mode m') as [mode0|] eqn:Em; [|discriminate].
  unfold generate_otp. cbv zeta.
  assert (Hid : id (set_status order PAYMENT_CONFIRMED) = oid) by exact (find_order_id _ _ _ Ef).
  rewrite Hid.
  match goal with
  | |- context [_assign_nearest_pickup_rider ?g ?gd ?h ?o ?d ?t] =>
      destruct (_assign_nearest_pickup_rider g gd h o d t) as [asg0 db0] eqn:Ea
  end.
  intros H. injection H as <- <- <- <- <- <- <- <-.
  exists order. split; [reflexivity|]. split; [apply payment_not_paid; exact Eb|].
  split; [reflexivity|]. split; [reflexivity|]. split; [reflexivity|].
  split; [reflexivity|]. split; [reflexivity|]. split; [reflexivity|].
  exists {| ev_order_id := oid; from_status := Some ORDER_PLACED; to_status := PAYMENT_CONFIRMED;
            actor_type := "SYSTEM"; actor_id := None; created_at := now |}.
  split; [reflexivity|]. split; [reflexivity|]. symmetry; exact Ea.
Qed.

Lemma confirm_payment_frame (db : Db) (pt : PaymentTable) (st : Store) (oid : nat)
  (m' pc dc : string) (now : Z) (mode : PaymentMode) (pay : PaymentStatus) (p d : string)
  (asg : option Assignment) (db' : Db) (pt' : PaymentTable) (st' : Store) :
  confirm_payment geocode get_distance haversine_distance db pt st oid m' pc dc now
    = (Confirmed mode pay p d asg, db', pt', st') ->
  (exists ev rest, events db' = events db ++ ev :: rest /\
     from_status ev = Some ORDER_PLACED /\ to_status ev = PAYMENT_CONFIRMED /\
     (List.length rest <= 1)%nat) /\
  (exists o', find_order db' oid = Some o').
Proof.
  intros H.
  destruct (confirm_payment_confirmed_inv _ _ _ _ _ _ _ _ _ _ _ _ _ _ _ _ H)
    as [order [Ef [_ [_ [_ [_ [_ [_ [_ [ev [Hfrom [Hto Ha]]]]]]]]]]]].
  set (o1 := set_status order PAYMENT_CONFIRMED) in Ha.
  assert (Hf2 : find_order (add_event (put_order db o1) ev) oid = Some o1).
  { rewrite find_order_add_event. apply (find_put_order db order o1 oid Ef).
    exact (find_order_id _ _ _ Ef). }
  destruct (assign_nearest_frame o1 _ now oid o1 Hf2) as [[rest [Hev Hlen]] Hfind].
  rewrite <- Ha in Hev, Hfind. cbn [snd] in Hev, Hfind.
  split; [|exact Hfind].
  exists ev, rest. split; [|split; [exact Hfrom|split; [exact Hto|exact Hlen]]].
  rewrite Hev. cbn [events add_event put_order]. rewrite <- app_assoc. reflexivity.
Qed.

(** A confirmed payment stores the chosen mode, with the payment PAID
    exactly for CARD and UPI (COD stays PENDING), and appends to the
    event log an ORDER_PLACED -> PAYMENT_CONFIRMED event, whatever the
    order's status was, followed by at most the rider-assignment event. *)
Theorem confirm_payment_confirmed (db : Db) (pt : PaymentTable) (st : Store) (oid : nat)
  (m' pc dc : string) (now : Z) (mode : PaymentMode) (pay : PaymentStatus) (p d : string)
  (asg : option Assignment) (db' : Db) (pt' : PaymentTable) (st' : Store)
  (H : confirm_payment geocode get_distance haversine_distance db pt st oid m' pc dc now
         = (Confirmed mode pay p d asg, db', pt', st')) :
  payment (payment_of pt oid) <> PAID /\
  payment_of pt' oid = {| payment := pay; payment_mode := mode |} /\
  (pay = PAID <-> mode <> COD) /\
  exists ev rest, events db' = events db ++ ev :: rest /\
    from_status ev = Some ORDER_PLACED /\ to_status ev = PAYMENT_CONFIRMED /\
    (List.length rest <= 1)%nat.
Proof.
  destruct (confirm_payment_frame _ _ _ _ _ _ _ _ _ _ _ _ _ _ _ _ H) as [Hev _].
  destruct (confirm_payment_confirmed_inv _ _ _ _ _ _ _ _ _ _ _ _ _ _ _ _ H)
    as [order [_ [Hnp [_ [Hpay [Hpt _]]]]]].
  split; [exact Hnp|]. split; [rewrite Hpt; apply payment_of_set_same|].
  split; [|exact Hev].
  subst pay. destruct mode; split; intros Hm; try discriminate; try reflexivity.
  exfalso; apply Hm; reflexivity.
Qed.

(** A confirmed payment issues both OTPs of the order: the store holds
    the pickup and the drop code with no attempts used, and the rider
    can verify the pickup code and afterwards still the drop code. *)
Theorem confirm_payment_issues_otps (db : Db) (pt : PaymentTable) (st : Store) (oid : nat)
  (m' pc dc : string) (now : Z) (mode : PaymentMode) (pay : PaymentStatus) (p d : string)
  (asg : option Assignment) (db' : Db) (pt' : PaymentTable) (st' : Store)
  (H : confirm_payment geocode get_distance haversine_distance db pt st oid m' pc dc now
         = (Confirmed mode pay p d asg, db', pt', st')) :
  p = pc /\ d = dc /\
  hgetall st' (oid, "pickup"%string) = Some {| hash := pc; attempts := 0 |} /\
  hgetall st' (oid, "drop"%string) = Some {| hash := dc; attempts := 0 |} /\
  valid (fst (verify_otp st' oid "pickup" p)) = true /\
  valid (fst (verify_otp (snd (verify_otp st' oid "pickup" p)) oid "drop" d)) = true.
Proof.
  destruct (confirm_payment_confirmed_inv _ _ _ _ _ _ _ _ _ _ _ _ _ _ _ _ H)
    as [order [_ [_ [_ [_ [_ [-> [-> [-> _]]]]]]]]].
  assert (Hne : (oid, "pickup"%string) <> (oid, "drop"%string)) by discriminate.
  assert (Hp : hgetall (hset (hset st (oid, "pickup"%string) {| hash := pc; attempts := 0 |})
                 (oid, "drop"%string) {| hash := dc; attempts := 0 |}) (oid, "pickup"%string)
               = Some {| hash := pc; attempts := 0 |}).
  { rewrite hgetall_hset_other by exact Hne. apply hgetall_hset_same. }
  assert (Hd : hgetall (hset (hset st (oid, "pickup"%string) {| hash := pc; attempts := 0 |})
                 (oid, "drop"%string) {| hash := dc; attempts := 0 |}) (oid, "drop"%string)
               = Some {| hash := dc; attempts := 0 |}) by apply hgetall_hset_same.
  split; [reflexivity|]. split; [reflexivity|].
  split; [exact Hp|]. split; [exact Hd|].
  set (S := hset (hset st (oid, "pickup"%string) {| hash := pc; attempts := 0 |})
                 (oid, "drop"%string) {| hash := dc; attempts := 0 |}) in Hp, Hd |- *.
  assert (Hv1 : verify_otp S oid "pickup" pc =
                ({| valid := true; error := None; remaining := 0 |},
                 delete (hincrby_attempts S (oid, "pickup"%string) 1) (oid, "pickup"%string))).
  { unfold verify_otp. rewrite Hp. cbn [attempts hash]. unfold checkpw.
    rewrite String.eqb_refl. reflexivity. }
  rewrite Hv1. cbn [fst snd valid]. split; [reflexivity|].
  unfold verify_otp. rewrite hgetall_delete_other by (intros E; apply Hne; symmetry; exact E).
  rewrite hgetall_hincrby_other by (intros E; apply Hne; symmetry; exact E).
  rewrite Hd. cbn [attempts hash]. unfold checkpw. rewrite String.eqb_refl. reflexivity.
Qed.

(** Confirming is not idempotent for cash on delivery: after a COD
    confirmation the payment is still PENDING, so a second call with a
    valid mode confirms again (new OTPs, a second ORDER_PLACED ->
    PAYMENT_CONFIRMED event); after CARD or UPI the second call answers
    "already_paid" and changes nothing. *)
Theorem confirm_payment_reconfirm (db : Db) (pt : PaymentTable) (st : Store) (oid : nat)
  (m' pc dc : string) (now : Z) (mode : PaymentMode) (pay : PaymentStatus) (p d : string)
  (asg : option Assignment) (db' : Db) (pt' : PaymentTable) (st' : Store)
  (H : confirm_payment geocode get_distance haversine_distance db pt st oid m' pc dc now
         = (Confirmed mode pay p d asg, db', pt', st')) :
  (mode = COD -> forall m2 mode2 pc2 dc2 now2, parse_mode m2 = Some mode2 ->
     exists asg2 db2 pt2 st2,
       confirm_payment geocode get_distance haversine_distance db' pt' st' oid m2 pc2 dc2 now2
       = (Confirmed mode2 (match mode2 with COD => PENDING | _ => PAID end) pc2 dc2 asg2,
          db2, pt2, st2)) /\
  (mode <> COD -> forall m2 pc2 dc2 now2,
     confirm_payment geocode get_distance haversine_distance db' pt' st' oid m2 pc2 dc2 now2
     = (AlreadyPaid mode, db', pt', st')).
Proof.
  destruct (confirm_payment_frame _ _ _ _ _ _ _ _ _ _ _ _ _ _ _ _ H) as [_ [o' Hf']].
  destruct (confirm_payment_confirmed_inv _ _ _ _ _ _ _ _ _ _ _ _ _ _ _ _ H)
    as [order [_ [_ [_ [Hpay [Hpt _]]]]]].
  split.
  - intros Hc m2 mode2 pc2 dc2 now2 Hm2. subst mode pay.
    unfold confirm_payment. rewrite Hf', Hpt, payment_of_set_same. cbn [payment PaymentStatus_beq].
    rewrite Hm2. unfold generate_otp; cbv zeta.
    destruct (_assign_nearest_pickup_rider _ _ _ _ _ _) as [asg2 db2].
    do 4 eexists. reflexivity.
  - intros Hc m2 pc2 dc2 now2.
    unfold confirm_payment. rewrite Hf', Hpt, payment_of_set_same.
    destruct mode; [contradiction| |]; subst pay; reflexivity.
Qed.

End Services.

(** Collecting the cash of a COD order is not guarded against a repeat:
    [mark_cod_collected] reads the payment mode but not the payment
    status, so a second call on the same order answers "cod_collected"
    again and logs a second event, the payment staying PAID and the
    orders unchanged. *)
Theorem mark_cod_collected_repeats (db : Db) (pt : PaymentTable) (oid : nat) (o : Order)
  (rid rid' : option nat) (now now' : Z)
  (Hf : find_order db oid = Some o) (Hc : payment_mode (payment_of pt oid) = COD) :
  let '(r1, db1, pt1) := mark_cod_collected db pt oid rid now in
  let '(r2, db2, pt2) := mark_cod_collected db1 pt1 oid rid' now' in
  r1 = CodCollected oid /\ r2 = CodCollected oid /\ orders db2 = orders db /\
  payment_of pt2 oid = {| payment := PAID; payment_mode := COD |} /\
  exists e1 e2, events db2 = events db ++ [e1; e2] /\
    from_status e1 = Some (status o) /\ to_status e1 = status o /\
    from_status e2 = Some (status o) /\ to_status e2 = status o.
Proof.
  unfold mark_cod_collected at 1. rewrite Hf, Hc. cbn [PaymentMode_beq negb].
  unfold mark_cod_collected.
  change (find_order (add_event db ?e) oid) with (find_order db oid).
  rewrite Hf, !payment_of_set_same. cbn [PaymentMode_beq negb payment_mode].
  split; [reflexivity|]. split; [reflexivity|]. split; [reflexivity|].
  split; [apply payment_of_set_same|].
  eexists _, _. split; [cbn [events add_event]; rewrite <- app_assoc; reflexivity|].
  repeat split.
Qed.

Section Lifecycle.
Variable geocode : string -> option (Q * Q).
Variable get_distance : Q -> Q -> Q -> Q -> option (option Q * option Z).
Variable haversine_distance : Q -> Q -> Q -> Q -> Q.

(** The cash-on-delivery life cycle: after a COD confirmation, the
    rider's cash collection succeeds and marks the payment PAID, and from
    then on [confirm_payment] answers "already_paid" with mode COD and
    changes nothing. *)
Theorem cod_lifecycle (db : Db) (pt : PaymentTable) (st : Store) (oid : nat)
  (m' pc dc : string) (now : Z) (pay : PaymentStatus) (p d : string)
  (asg : option Assignment) (db1 : Db) (pt1 : PaymentTable) (st1 : Store)
  (H : confirm_payment geocode get_distance haversine_distance db pt st oid m' pc dc now
         = (Confirmed COD pay p d asg, db1, pt1, st1))
  (rid : option nat) (t : Z) :
  let '(r2, db2, pt2) := mark_cod_collected db1 pt1 oid rid t in
  r2 = CodCollected oid /\
  payment_of pt2 oid = {| payment := PAID; payment_mode := COD |} /\
  forall m2 pc2 dc2 now2,
    confirm_payment geocode get_distance haversine_distance db2 pt2 st1 oid m2 pc2 dc2 now2
    = (AlreadyPaid COD, db2, pt2, st1).
Proof.
  destruct (confirm_payment_frame geocode get_distance haversine_distance
              _ _ _ _ _ _ _ _ _ _ _ _ _ _ _ _ H) as [_ [o' Hf']].
  destruct (confirm_payment_confirmed_inv geocode get_distance haversine_distance
              _ _ _ _ _ _ _ _ _ _ _ _ _ _ _ _ H) as [order [_ [_ [_ [Hpay [Hpt _]]]]]].
  subst pay pt1.
  unfold mark_cod_collected. rewrite Hf', payment_of_set_same. cbn [payment_mode negb PaymentMode_beq].
  split; [reflexivity|].
  split; [apply payment_of_set_same|].
  intros m2 pc2 dc2 now2. unfold confirm_payment.
  rewrite find_order_add_event, Hf', payment_of_set_same. reflexivity.
Qed.

End Lifecycle.

Lemma confirm_payment_confirmed_witness :
  payment_of (snd (fst (confirm_payment Fixtures.no_geocode Fixtures.road_3km Fixtures.manhattan
                          Fixtures.db0 [] [] 3 "card" "111111" "222222" 600))) 3
  = {| payment := PAID; payment_mode := CARD |}.
Proof.
  destruct (confirm_payment_confirmed Fixtures.no_geocode Fixtures.road_3km Fixtures.manhattan
              Fixtures.db0 [] [] 3 "card" "111111" "222222" 600 _ _ _ _ _ _ _ _ eq_refl)
    as [_ [A _]].
  exact A.
Defined.

Lemma confirm_payment_issues_otps_witness :
  valid (fst (verify_otp (snd (confirm_payment Fixtures.no_geocode Fixtures.road_3km
                                 Fixtures.manhattan Fixtures.db0 [] [] 3 "cod" "111111"
                                 "222222" 600)) 3 "pickup" "111111")) = true.
Proof.
  destruct (confirm_payment_issues_otps Fixtures.no_geocode Fixtures.road_3km Fixtures.manhattan
              Fixtures.db0 [] [] 3 "cod" "111111" "222222" 600 _ _ _ _ _ _ _ _ eq_refl)
    as [_ [_ [_ [_ [A _]]]]].
  exact A.
Defined.

Lemma confirm_payment_reconfirm_witness :
  let R := confirm_payment Fixtures.no_geocode Fixtures.road_3km Fixtures.manhattan
             Fixtures.db0 [] [] 3 "cod" "111111" "222222" 600 in
  exists asg2 db2 pt2 st2,
    confirm_payment Fixtures.no_geocode Fixtures.road_3km Fixtures.manhattan
      (snd (fst (fst R))) (snd (fst R)) (snd R) 3 "upi" "333333" "444444" 700
    = (Confirmed UPI PAID "333333" "444444" asg2, db2, pt2, st2).
Proof.
  intros R.
  destruct (confirm_payment_reconfirm Fixtures.no_geocode Fixtures.road_3km Fixtures.manhattan
              Fixtures.db0 [] [] 3 "cod" "111111" "222222" 600 _ _ _ _ _ _ _ _ eq_refl)
    as [A _].
  exact (A eq_refl "upi"%string UPI "333333"%string "444444"%string 700%Z eq_refl).
Defined.

Lemma cod_lifecycle_witness :
  let R := confirm_payment Fixtures.no_geocode Fixtures.road_3km Fixtures.manhattan
             Fixtures.db0 [] [] 3 "cod" "111111" "222222" 600 in
  let '(r2, db2, pt2) := mark_cod_collected (snd (fst (fst R))) (snd (fst R)) 3 (Some 7%nat) 900 in
  r2 = CodCollected 3.
Proof.
  exact (proj1 (cod_lifecycle Fixtures.no_geocode Fixtures.road_3km Fixtures.manhattan
                  Fixtures.db0 [] [] 3 "cod" "111111" "222222" 600 _ _ _ _ _ _ _ eq_refl
                  (Some 7%nat) 900)).
Defined.

Lemma mark_cod_collected_repeats_witness :
  let pt := [(3%nat, {| payment := PENDING; payment_mode := COD |})] in
  let '(r1, db1, pt1) := mark_cod_collected Fixtures.db0 pt 3 (Some 7%nat) 700 in
  let '(r2, db2, pt2) := mark_cod_collected db1 pt1 3 (Some 7%nat) 710 in
  r1 = CodCollected 3 /\ r2 = CodCollected 3 /\ orders db2 = orders Fixtures.db0 /\
  payment_of pt2 3 = {| payment := PAID; payment_mode := COD |} /\
  exists e1 e2, events db2 = events Fixtures.db0 ++ [e1; e2] /\
    from_status e1 = Some (status Fixtures.order_paid) /\ to_status e1 = status Fixtures.order_paid /\
    from_status e2 = Some (status Fixtures.order_paid) /\ to_status e2 = status Fixtures.order_paid.
Proof.
  exact (mark_cod_collected_repeats Fixtures.db0 [(3%nat, {| payment := PENDING; payment_mode := COD |})]
           3 Fixtures.order_paid (Some 7%nat) (Some 7%nat) 700 710 eq_refl eq_refl).
Defined.

End PaymentsMore.

(** ** Route optimizer *)
Module RouteMore.
Import RouteOptimizer PricingFacts.

Lemma all_some_map_Some {A B} (f : A -> option B) (g : A -> B) (l : list A) :
  (forall x, In x l -> f x = Some (g x)) -> all_some (map f l) = Some (map g l).
Proof.
  induction l as [|x l IH]; intros Hf; cbn; [reflexivity|].
  rewrite (Hf x (or_introl eq_refl)), IH; [reflexivity|].
  intros y Hy. apply Hf. right. exact Hy.
Qed.

Lemma all_some_None {A} (l : list (option A)) : In None l -> all_some l = None.
Proof.
  induction l as [|[x|] l IH]; cbn; intros Hin; [contradiction| |reflexivity].
  destruct Hin as [E|Hin]; [discriminate|]. rewrite (IH Hin). reflexivity.
Qed.

Lemma all_some_length {A} (l : list (option A)) (xs : list A) :
  all_some l = Some xs -> List.length xs = List.length l.
Proof.
  revert xs. induction l as [|[x|] l IH]; cbn; intros xs H.
  - injection H as <-. reflexivity.
  - destruct (all_some l) as [ys|] eqn:E; [|discriminate].
    injection H as <-. cbn. f_equal. apply IH. reflexivity.
  - discriminate.
Qed.

Lemma nth_map_seq {A} (h : nat -> A) (d : A) (n i : nat) :
  (i < n)%nat -> nth i (map h (seq 0 n)) d = h i.
Proof.
  intros Hi. rewrite (nth_indep _ d (h 0%nat)) by (rewrite length_map, length_seq; exact Hi).
  rewrite map_nth, seq_nth by exact Hi. reflexivity.
Qed.

Lemma fold_sum_shift (f : nat -> Z) (l : list nat) (acc : Z) :
  fold_left (fun a i => (a + f i)%Z) l acc = (acc + fold_left (fun a i => (a + f i)%Z) l 0)%Z.
Proof.
  revert acc. induction l as [|x l IH]; intros acc; cbn [fold_left]; [lia|].
  rewrite (IH (acc + f x)%Z), (IH (0 + f x)%Z). lia.
Qed.

Lemma path_length_seq (m : list (list Z)) (z : nat) (k a : nat) :
  path_length m (seq a (S k) ++ [z]) =
  (fold_left (fun acc i => acc + mat_get m i (S i)) (seq a k) 0 + mat_get m (a + k) z)%Z.
Proof.
  revert a. induction k as [|k IH]; intros a.
  - cbn. rewrite Nat.add_0_r. lia.
  - assert (E : seq a (S (S k)) ++ [z] = a :: (seq (S a) (S k) ++ [z])) by reflexivity.
    assert (E2 : path_length m (a :: (seq (S a) (S k) ++ [z])) =
                 (mat_get m a (S a) + path_length m (seq (S a) (S k) ++ [z]))%Z) by reflexivity.
    rewrite E, E2, IH.
    change (seq a (S k)) with (a :: seq (S a) k). cbn [fold_left].
    rewrite (fold_sum_shift _ _ (0 + mat_get m a (S a))%Z).
    replace (S a + k)%nat with (a + S k)%nat by lia. lia.
Qed.

Lemma naive_distance_path (m : list (list Z)) (n : nat) :
  (1 <= n)%nat -> naive_distance m n = path_length m (seq 0 n ++ [0%nat]).
Proof.
  intros Hn. destruct n as [|n]; [lia|].
  unfold naive_distance. rewrite path_length_seq. replace (S n - 1)%nat with n by lia. reflexivity.
Qed.

Lemma filter_all_true {A} (p : A -> bool) (l : list A) :
  (forall x, In x l -> p x = true) -> filter p l = l.
Proof.
  induction l as [|x l IH]; intros H; cbn; [reflexivity|].
  rewrite (H x (or_introl eq_refl)), IH; [reflexivity|].
  intros y Hy. apply H. right. exact Hy.
Qed.

Lemma Permutation_filter_compat {A} (p : A -> bool) (l l' : list A) :
  Permutation l l' -> Permutation (filter p l) (filter p l').
Proof.
  induction 1 as [|x l l' _ IH|x y l|l l' l'' _ IH1 _ IH2]; cbn.
  - constructor.
  - destruct (p x); [apply perm_skip|]; exact IH.
  - destruct (p x), (p y); try apply perm_swap; try apply perm_skip; apply Permutation_refl.
  - exact (Permutation_trans IH1 IH2).
Qed.

Lemma fold_append_filter {A B} (p : A -> bool) (f : A -> B) (l : list A) (acc : list B) :
  fold_left (fun acc x => if p x then acc ++ [f x] else acc) l acc = acc ++ map f (filter p l).
Proof.
  revert acc. induction l as [|x l IH]; intros acc; cbn; [symmetry; apply app_nil_r|].
  destruct (p x); rewrite IH; [rewrite <- app_assoc|]; reflexivity.
Qed.

Lemma map_nth_shift {A} (l : list A) (d : A) :
  map (fun k => nth (k - 1) l d) (seq 1 (List.length l)) = l.
Proof.
  rewrite <- seq_shift, map_map.
  induction l as [|x l IH]; [reflexivity|].
  cbn [List.length seq map]. f_equal.
  rewrite <- seq_shift, map_map. cbn [Nat.sub].
  rewrite <- IH at 2. apply map_ext. intros k. cbn. rewrite Nat.sub_0_r. reflexivity.
Qed.

Lemma stops_of_perm (dps : list DeliveryPoint) (nodes : list nat) :
  Permutation nodes (seq 0 (S (List.length dps))) ->
  Permutation (stops_of dps (nodes ++ [0%nat])) dps.
Proof.
  intros Hp. unfold stops_of. rewrite fold_append_filter. cbn [app].
  rewrite filter_app. cbn [filter Nat.ltb Nat.leb andb]. rewrite app_nil_r.
  apply (Permutation_filter_compat
           (fun x => (0 <? x)%nat && (x <=? List.length dps)%nat)) in Hp.
  apply (Permutation_map (fun k => nth (k - 1) dps
                                     {| dp_lat := 0; dp_lng := 0; dp_order_id := 0 |})) in Hp.
  eapply Permutation_trans; [exact Hp|].
  cbn [seq filter Nat.ltb Nat.leb andb].
  rewrite filter_all_true.
  - rewrite map_nth_shift. apply Permutation_refl.
  - intros x Hx. apply in_seq in Hx. destruct x as [|x]; [lia|].
    cbn -[Nat.leb]. apply Nat.leb_le. lia.
Qed.

Section Matrix.
Variable haversine_distance : Q -> Q -> Q -> Q -> Q.

Lemma py_index_some {A} (xs : list A) (i : nat) (d : A) :
  (i < List.length xs)%nat -> py_index xs i = Some (nth i xs d).
Proof.
  unfold py_index. revert i. induction xs as [|x xs IH]; intros [|i] Hi; cbn in *; try lia;
    [reflexivity|]. apply IH. lia.
Qed.

Lemma matrix_cell_haversine (points : list (Q * Q)) (api : option (list (list (option Q))))
  (i j : nat) :
  (api = None \/ api = Some []) -> (i < List.length points)%nat -> (j < List.length points)%nat ->
  matrix_cell haversine_distance points api i j =
  Some (if Nat.eqb i j then 0%Z
        else py_int (haversine_distance (fst (nth i points (0, 0))) (snd (nth i points (0, 0)))
                       (fst (nth j points (0, 0))) (snd (nth j points (0, 0))) * 1000)).
Proof.
  intros Hapi Hi Hj. unfold matrix_cell.
  destruct (Nat.eqb i j); [reflexivity|].
  rewrite (py_index_some points i (0, 0) Hi), (py_index_some points j (0, 0) Hj).
  destruct (nth i points (0, 0)), (nth j points (0, 0)).
  destruct Hapi as [-> | ->]; reflexivity.
Qed.

Lemma matrix_cell_api (points : list (Q * Q)) (am : list (list (option Q))) (i j : nat) :
  am <> [] -> (i < List.length points)%nat -> (j < List.length points)%nat ->
  (exists row, nth_error am i = Some row /\ (List.length points <= List.length row)%nat) ->
  matrix_cell haversine_distance points (Some am) i j =
  Some (if Nat.eqb i j then 0%Z
        else
          let hav := py_int (haversine_distance (fst (nth i points (0, 0)))
                               (snd (nth i points (0, 0))) (fst (nth j points (0, 0)))
                               (snd (nth j points (0, 0))) * 1000) in
          match nth j (nth i am []) None with
          | Some d => if Qeq_bool d 0 then hav else py_int (d * 1000)
          | None => hav
          end).
Proof.
  intros Ham Hi Hj [row [Hrow Hlen]]. unfold matrix_cell.
  destruct (Nat.eqb i j); [reflexivity|].
  rewrite (py_index_some points i (0, 0) Hi), (py_index_some points j (0, 0) Hj).
  destruct am as [|r0 am']; [contradiction|].
  replace (py_index (r0 :: am') i) with (Some row) by (symmetry; exact Hrow).
  rewrite (nth_error_nth (r0 :: am') i [] Hrow).
  rewrite (py_index_some row j None) by lia.
  destruct (nth i points (0, 0)), (nth j points (0, 0)).
  cbv zeta. destruct (nth j row None) as [d|]; [|reflexivity].
  destruct (Qeq_bool d 0); reflexivity.
Qed.

Lemma build_matrix_cells (points : list (Q * Q)) (api : option (list (list (option Q))))
  (c : nat -> nat -> Z) :
  (forall i j, (i < List.length points)%nat -> (j < List.length points)%nat ->
     matrix_cell haversine_distance points api i j = Some (c i j)) ->
  _build_distance_matrix_from_points haversine_distance points api =
  Some (map (fun i => map (fun j => c i j) (seq 0 (List.length points)))
            (seq 0 (List.length points))).
Proof.
  intros Hc. unfold _build_distance_matrix_from_points.
  apply all_some_map_Some. intros i Hi. apply in_seq in Hi.
  apply all_some_map_Some. intros j Hj. apply in_seq in Hj.
  apply Hc; lia.
Qed.

Lemma mat_get_map_seq (c : nat -> nat -> Z) (n i j : nat) :
  (i < n)%nat -> (j < n)%nat ->
  mat_get (map (fun i => map (fun j => c i j) (seq 0 n)) (seq 0 n)) i j = c i j.
Proof.
  intros Hi Hj. unfold mat_get.
  rewrite (nth_map_seq (fun i => map (fun j => c i j) (seq 0 n)) [] n i Hi).
  apply (nth_map_seq (fun j => c i j) 0%Z n j Hj).
Qed.

Lemma row_length_map_seq (c : nat -> nat -> Z) (n i : nat) :
  (i < n)%nat -> List.length (nth i (map (fun i => map (fun j => c i j) (seq 0 n)) (seq 0 n)) []) = n.
Proof.
  intros Hi. rewrite (nth_map_seq (fun i => map (fun j => c i j) (seq 0 n)) [] n i Hi).
  rewrite length_map, length_seq. reflexivity.
Qed.

Lemma all_some_nth {A} (l : list (option A)) (xs : list A) (d : A) (i : nat) :
  all_some l = Some xs -> (i < List.length l)%nat -> nth i l None = Some (nth i xs d).
Proof.
  revert xs i. induction l as [|[x|] l IH]; cbn; intros xs i H Hi; [lia| |discriminate].
  destruct (all_some l) as [ys|] eqn:E; [|discriminate]. injection H as <-.
  destruct i as [|i]; [reflexivity|]. cbn. apply IH; [reflexivity|lia].
Qed.

Lemma mat_get_cell (points : list (Q * Q)) (api : option (list (list (option Q))))
  (m : list (list Z)) (i j : nat) :
  _build_distance_matrix_from_points haversine_distance points api = Some m ->
  (i < List.length points)%nat -> (j < List.length points)%nat ->
  matrix_cell haversine_distance points api i j = Some (mat_get m i j).
Proof.
  intros Hm Hi Hj. unfold _build_distance_matrix_from_points in Hm.
  pose proof (all_some_nth _ _ [] i Hm) as Hrow.
  rewrite length_map, length_seq in Hrow. specialize (Hrow Hi).
  rewrite (nth_map_seq _ None _ _ Hi) in Hrow.
  pose proof (all_some_nth _ _ 0%Z j Hrow) as Hcell.
  rewrite length_map, length_seq in Hcell. specialize (Hcell Hj).
  rewrite (nth_map_seq _ None _ _ Hj) in Hcell. exact Hcell.
Qed.

Lemma py_int_nonneg (q : Q) : 0 <= q -> (0 <= py_int q)%Z.
Proof.
  intros H. unfold py_int. apply Z.quot_pos; [|lia].
  unfold Qle in H. cbn in H. lia.
Qed.

Lemma matrix_cell_nonneg (points : list (Q * Q)) (api : option (list (list (option Q))))
  (i j : nat) (z : Z) :
  (forall a b c d, 0 <= haversine_distance a b c d) ->
  (forall am row d, api = Some am -> In row am -> In (Some d) row -> 0 <= d) ->
  matrix_cell haversine_distance points api i j = Some z -> (0 <= z)%Z.
Proof.
  intros Hh Hapi H. unfold matrix_cell in H.
  assert (Hhav : forall z', match py_index points i, py_index points j with
                            | Some (la1, ln1), Some (la2, ln2) =>
                                Some (py_int (haversine_distance la1 ln1 la2 ln2 * 1000))
                            | _, _ => None end = Some z' -> (0 <= z')%Z).
  { intros z' Hz. destruct (py_index points i) as [[la1 ln1]|], (py_index points j) as [[la2 ln2]|];
      try discriminate Hz.
    injection Hz as <-. apply py_int_nonneg.
    apply Qmult_le_0_compat; [apply Hh | discriminate]. }
  destruct (Nat.eqb i j); [injection H as <-; lia|].
  cbv zeta in H.
  destruct api as [[|row0 am']|] eqn:Eapi; try (apply Hhav; exact H).
  destruct (py_index (row0 :: am') i) as [row|] eqn:Er; [|discriminate H].
  destruct (py_index row j) as [cell|] eqn:Ec; [|discriminate H].
  destruct cell as [d|]; [|apply Hhav; exact H].
  destruct (negb (Qeq_bool d 0)); [|apply Hhav; exact H].
  injection H as <-. apply py_int_nonneg.
  apply Qmult_le_0_compat; [|discriminate].
  apply (Hapi (row0 :: am') row d eq_refl).
  - apply (nth_error_In _ _ Er).
  - apply (nth_error_In _ _ Ec).
Qed.

(** Without an API matrix (or with an empty one) the distance matrix is
    symmetric whenever the haversine distance is, as the formula of
    src/api/services/maps.py is: the two directions of an arc cost the
    same. *)
Theorem build_matrix_symmetric (points : list (Q * Q)) (api : option (list (list (option Q))))
  (Hapi : api = None \/ api = Some [])
  (Hsym : forall a b c d, haversine_distance a b c d = haversine_distance c d a b) :
  exists m, _build_distance_matrix_from_points haversine_distance points api = Some m /\
    forall i j, (i < List.length points)%nat -> (j < List.length points)%nat ->
      mat_get m i j = mat_get m j i.
Proof.
  set (c := fun i j =>
         if Nat.eqb i j then 0%Z
         else py_int (haversine_distance (fst (nth i points (0, 0))) (snd (nth i points (0, 0)))
                        (fst (nth j points (0, 0))) (snd (nth j points (0, 0))) * 1000)).
  exists (map (fun i => map (fun j => c i j) (seq 0 (List.length points))) (seq 0 (List.length points))).
  split.
  - apply build_matrix_cells. intros i j Hi Hj. apply matrix_cell_haversine; assumption.
  - intros i j Hi Hj. rewrite !mat_get_map_seq by assumption.
    unfold c. rewrite Nat.eqb_sym. destruct (Nat.eqb j i); [reflexivity|].
    rewrite Hsym. reflexivity.
Qed.

(** Every cell of a distance matrix that the build returns is
    non-negative, with or without an API matrix, when the haversine
    distance and the API's distances are: the solver never sees a
    negative arc. *)
Theorem build_matrix_nonneg (points : list (Q * Q)) (api : option (list (list (option Q))))
  (m : list (list Z))
  (Hh : forall a b c d, 0 <= haversine_distance a b c d)
  (Hapi : forall am row d, api = Some am -> In row am -> In (Some d) row -> 0 <= d)
  (Hm : _build_distance_matrix_from_points haversine_distance points api = Some m) :
  forall i j, (i < List.length points)%nat -> (j < List.length points)%nat ->
    (0 <= mat_get m i j)%Z.
Proof.
  intros i j Hi Hj.
  apply (matrix_cell_nonneg points api i j _ Hh Hapi).
  apply mat_get_cell; assumption.
Qed.

(** An API matrix with fewer rows than there are points makes the build
    raise [IndexError] (the row of a point past its end is read for every
    other point). *)
Theorem build_matrix_api_too_small (points : list (Q * Q)) (am : list (list (option Q)))
  (Ham : am <> []) (Hsmall : (List.length am < List.length points)%nat) :
  _build_distance_matrix_from_points haversine_distance points (Some am) = None.
Proof.
  unfold _build_distance_matrix_from_points.
  apply all_some_None. apply in_map_iff.
  exists (List.length am). split; [|apply in_seq; lia].
  apply all_some_None. apply in_map_iff.
  exists 0%nat. split; [|apply in_seq; lia].
  unfold matrix_cell.
  destruct am as [|r0 am']; [contradiction|].
  replace (Nat.eqb (List.length (r0 :: am')) 0) with false by reflexivity.
  assert (E : py_index (r0 :: am') (List.length (r0 :: am')) = None)
    by (apply nth_error_None; lia).
  rewrite E. reflexivity.
Qed.

End Matrix.

Section Route.
Variable haversine_distance : Q -> Q -> Q -> Q -> Q.
Variable solve : list (list Z) -> option (list nat).

(** For two or more stops, the reported total distance is the length,
    through the distance matrix, of the reported sequence (rounded to
    10 m), both for the solver's tour and for the sequential fallback; the
    sequence ends at the depot and the reported savings are never
    negative. *)
Theorem optimize_route_total_is_path_length (depot : Q * Q) (dps : list DeliveryPoint)
  (api : option (list (list (option Q)))) (r : OptimizedRoute)
  (Hlen : (2 <= List.length dps)%nat)
  (H : optimize_route haversine_distance solve depot dps api = Some r) :
  exists m,
    _build_distance_matrix_from_points haversine_distance
      (depot :: map (fun p => (dp_lat p, dp_lng p)) dps) api = Some m /\
    total_distance_km r = round2 (inject_Z (path_length m (sequence r)) / 1000) /\
    last (sequence r) 1%nat = 0%nat /\
    0 <= savings_vs_naive_km r.
Proof.
  destruct dps as [|p1 [|p2 rest]]; cbn [List.length] in Hlen; try lia.
  unfold optimize_route in H. cbv zeta in H.
  destruct (_build_distance_matrix_from_points _ _ _) as [m|] eqn:Eb; [|discriminate].
  exists m. split; [reflexivity|].
  destruct (solve m) as [nodes|]; injection H as <-;
    cbn [total_distance_km sequence savings_vs_naive_km].
  - split; [reflexivity|]. split; [apply last_last|]. apply py_max_right.
  - rewrite naive_distance_path by (cbn [List.length]; lia).
    split; [reflexivity|].
    split; [exact (last_last (seq 0 (S (S (S (List.length (map (fun p => (dp_lat p, dp_lng p)) rest))))))
                     0%nat 1%nat)|].
    apply Qle_refl.
Qed.

(** If the solver returns a tour through all the nodes of the matrix,
    every delivery point appears exactly once in the stop details, in all
    the branches of [optimize_route]. *)
Theorem optimize_route_stops_permutation
  (Hsolve : forall m nodes, solve m = Some nodes -> Permutation nodes (seq 0 (List.length m)))
  (depot : Q * Q) (dps : list DeliveryPoint) (api : option (list (list (option Q))))
  (r : OptimizedRoute)
  (H : optimize_route haversine_distance solve depot dps api = Some r) :
  Permutation (stop_details r) dps.
Proof.
  destruct dps as [|p1 [|p2 rest]].
  - injection H as <-. constructor.
  - injection H as <-. apply Permutation_refl.
  - unfold optimize_route in H. cbv zeta in H.
    destruct (_build_distance_matrix_from_points _ _ _) as [m|] eqn:Eb; [|discriminate].
    destruct (solve m) as [nodes|] eqn:Es; injection H as <-; cbn [stop_details];
      [|apply Permutation_refl].
    apply stops_of_perm.
    assert (Hm : List.length m = S (List.length (p1 :: p2 :: rest))).
    { unfold _build_distance_matrix_from_points in Eb.
      rewrite (all_some_length _ _ Eb), length_map, length_seq. cbn. rewrite length_map. reflexivity. }
    rewrite <- Hm. apply Hsolve. exact Es.
Qed.

End Route.

Lemma chunks_concat {A} (kn c : nat) (l : list A) :
  (List.length l <= c * kn)%nat ->
  List.concat (map (fun i => firstn kn (skipn (i * kn) l)) (seq 0 c)) = l.
Proof.
  revert l. induction c as [|c IH]; intros l Hl.
  - cbn in Hl. symmetry. apply length_zero_iff_nil. lia.
  - change (seq 0 (S c)) with (0%nat :: seq 1 c).
    rewrite <- seq_shift. cbn [map List.concat]. rewrite map_map, Nat.mul_0_l, skipn_O.
    rewrite (map_ext (fun x => firstn kn (skipn (S x * kn) l))
                     (fun x => firstn kn (skipn (x * kn) (skipn kn l)))).
    + rewrite IH; [apply firstn_skipn|]. rewrite length_skipn. cbn [Nat.mul] in Hl. lia.
    + intros x. rewrite skipn_skipn. f_equal. f_equal. lia.
Qed.

Lemma parcel_groups_chunks {A} (parcels : list A) (k : Z) (Hk : (0 < k)%Z) :
  parcel_groups parcels k =
  Some (map (fun i => firstn (Z.to_nat k) (skipn (i * Z.to_nat k) parcels))
            (seq 0 (Z.to_nat (Z.max 0 ((Z.of_nat (List.length parcels) - 0 + k - 1) / k))))).
Proof.
  unfold parcel_groups, py_range_step.
  rewrite (proj2 (Z.eqb_neq k 0)) by lia. rewrite (proj2 (Z.ltb_lt 0 k)) by lia.
  f_equal. rewrite map_map. apply map_ext. intros i.
  unfold py_slice.
  replace (0 + Z.of_nat i * k)%Z with (Z.of_nat (i * Z.to_nat k)) by (rewrite Nat2Z.inj_mul, Z2Nat.id; lia).
  replace (Z.of_nat (i * Z.to_nat k) + k)%Z with (Z.of_nat (i * Z.to_nat k + Z.to_nat k))
    by (rewrite Nat2Z.inj_add, Z2Nat.id; lia).
  rewrite !Nat2Z.id. f_equal. lia.
Qed.

(** For a positive [max_per_route], the groups of [optimize_routes]
    partition the parcels in order: concatenated they give back the
    parcels, and each group has between 1 and [max_per_route] parcels. *)
Theorem parcel_groups_partition {A} (parcels : list A) (k : Z) (Hk : (0 < k)%Z) :
  exists gs, parcel_groups parcels k = Some gs /\ List.concat gs = parcels /\
    Forall (fun g => 1 <= List.length g <= Z.to_nat k)%nat gs.
Proof.
  rewrite (parcel_groups_chunks parcels k Hk).
  set (L := Z.of_nat (List.length parcels)).
  set (q := ((L - 0 + k - 1) / k)%Z).
  assert (Hdm := Z.div_mod (L - 0 + k - 1) k ltac:(lia)).
  assert (Hmb := Z.mod_pos_bound (L - 0 + k - 1) k Hk).
  fold q in Hdm.
  assert (Hq : (0 <= q)%Z) by (apply Z.div_pos; lia).
  set (c := Z.to_nat (Z.max 0 q)).
  assert (Hc : Z.of_nat c = q) by (unfold c; rewrite Z2Nat.id; lia).
  set (kn := Z.to_nat k).
  assert (Hkn : Z.of_nat kn = k) by (unfold kn; rewrite Z2Nat.id; lia).
  assert (HL : L = Z.of_nat (List.length parcels)) by reflexivity.
  assert (Hcover : (List.length parcels <= c * kn)%nat) by nia.
  assert (Hlast : forall i, (i < c)%nat -> (i * kn < List.length parcels)%nat) by (intros i Hi; nia).
  eexists. split; [reflexivity|]. split.
  - apply chunks_concat. exact Hcover.
  - apply Forall_map, Forall_forall. intros i Hi. apply in_seq in Hi.
    specialize (Hlast i ltac:(lia)).
    rewrite length_firstn, length_skipn. lia.
Qed.

(** A zero [max_per_route] makes [range] raise [ValueError]; a negative
    one gives no group at all, so no route is built for any parcel. *)
Theorem parcel_groups_nonpositive {A} (parcels : list A) (k : Z) (Hk : (k <= 0)%Z) :
  parcel_groups parcels k = if (k =? 0)%Z then None else Some [].
Proof.
  unfold parcel_groups, py_range_step.
  destruct (k =? 0)%Z eqn:E; [reflexivity|].
  apply Z.eqb_neq in E.
  rewrite (proj2 (Z.ltb_ge 0 k)) by lia.
  assert (Hd : ((0 - Z.of_nat (List.length parcels) - k - 1) / - k < 1)%Z)
    by (apply Z.div_lt_upper_bound; lia).
  replace (Z.max 0 ((0 - Z.of_nat (List.length parcels) - k - 1) / - k)) with 0%Z by lia.
  reflexivity.
Qed.

Lemma build_matrix_symmetric_witness :
  exists m, _build_distance_matrix_from_points Fixtures.manhattan [(0, 0); (1, 0); (2, 3)] None
            = Some m /\ mat_get m 0 2 = mat_get m 2 0 /\ mat_get m 1 2 = mat_get m 2 1.
Proof.
  destruct (build_matrix_symmetric Fixtures.manhattan [(0, 0); (1, 0); (2, 3)] None
              (or_introl eq_refl)) as [m [Hm Hs]].
  - intros a b c d. unfold Fixtures.manhattan.
    rewrite (Qabs_Qminus a c), (Qabs_Qminus b d). reflexivity.
  - exists m. split; [exact Hm|].
    split; apply Hs; cbn; lia.
Defined.

Lemma build_matrix_nonneg_witness :
  _build_distance_matrix_from_points Fixtures.manhattan [(0, 0); (1, 0)]
    (Some [[None; Some 0]; [Some (3 # 2); None]]) = Some [[0; 1000]; [1500; 0]]%Z /\
  (0 <= mat_get [[0; 1000]; [1500; 0]] 1 0)%Z.
Proof.
  split; [reflexivity|].
  apply (build_matrix_nonneg Fixtures.manhattan [(0, 0); (1, 0)]
           (Some [[None; Some 0]; [Some (3 # 2); None]])); [| |reflexivity|cbn; lia|cbn; lia].
  - intros a b c d. unfold Fixtures.manhattan.
    apply (Qplus_le_compat 0 _ 0 _); apply Qabs_nonneg.
  - intros am row d Ham Hrow Hd. injection Ham as <-.
    destruct Hrow as [<-|[<-|[]]]; cbn in Hd;
      destruct Hd as [Hd|[Hd|[]]]; try discriminate Hd; injection Hd as <-; discriminate.
Defined.

Lemma build_matrix_api_too_small_witness :
  _build_distance_matrix_from_points Fixtures.manhattan [(0, 0); (1, 0); (2, 0)]
    (Some [[None; Some 1; Some 2]]) = None.
Proof.
  apply build_matrix_api_too_small; [discriminate | cbn; lia].
Defined.

Lemma optimize_route_total_is_path_length_witness :
  let dps := [{| dp_lat := 1; dp_lng := 0; dp_order_id := 1 |};
              {| dp_lat := 2; dp_lng := 0; dp_order_id := 2 |}] in
  exists r m, optimize_route Fixtures.manhattan (fun m => Some (seq 0 (List.length m))) (0, 0)
                dps None = Some r /\
    _build_distance_matrix_from_points Fixtures.manhattan
      ((0, 0) :: map (fun p => (dp_lat p, dp_lng p)) dps) None = Some m /\
    total_distance_km r = round2 (inject_Z (path_length m (sequence r)) / 1000).
Proof.
  intros dps.
  destruct (optimize_route_total_is_path_length Fixtures.manhattan
              (fun m => Some (seq 0 (List.length m))) (0, 0) dps None _
              ltac:(cbn; lia) eq_refl) as [m [Hm [Ht _]]].
  eexists. exists m. split; [reflexivity|]. split; [exact Hm | exact Ht].
Defined.

Lemma optimize_route_stops_permutation_witness :
  let dps := [{| dp_lat := 1; dp_lng := 0; dp_order_id := 1 |};
              {| dp_lat := 2; dp_lng := 0; dp_order_id := 2 |}] in
  exists r, optimize_route Fixtures.manhattan (fun m => Some (seq 0 (List.length m))) (0, 0)
              dps None = Some r /\ Permutation (stop_details r) dps.
Proof.
  intros dps. eexists. split; [reflexivity|].
  apply (optimize_route_stops_permutation Fixtures.manhattan
           (fun m => Some (seq 0 (List.length m))) ltac:(intros m nodes E; injection E as <-;
                                                         apply Permutation_refl)
           (0, 0) dps None _ eq_refl).
Defined.

Lemma parcel_groups_partition_witness :
  parcel_groups [1; 2; 3; 4; 5; 6; 7]%nat 3 = Some [[1; 2; 3]; [4; 5; 6]; [7]]%nat /\
  List.concat [[1; 2; 3]; [4; 5; 6]; [7]]%nat = [1; 2; 3; 4; 5; 6; 7]%nat.
Proof.
  destruct (parcel_groups_partition [1; 2; 3; 4; 5; 6; 7]%nat 3 ltac:(lia)) as [gs [E [C _]]].
  split; [reflexivity|].
  assert (Hgs : gs = [[1; 2; 3]; [4; 5; 6]; [7]]%nat).
  { vm_compute in E. injection E as <-. reflexivity. }
  rewrite <- Hgs. exact C.
Defined.

Lemma parcel_groups_nonpositive_witness :
  parcel_groups [1; 2; 3]%nat (-1) = Some [].
Proof. exact (parcel_groups_nonpositive [1; 2; 3]%nat (-1) ltac:(lia)). Defined.

End RouteMore.
